(** * goaoc: selector resolution, dispatch and result reporting

    A shallow embedding of the Go package [goaoc] (the runner, the
    console manager of [io.go], the parts and the errors), of its [mock]
    manager and of the example program, together with the properties of
    the option-resolution chain.

    Conventions of the embedding.
    - A Go [int] is a [Z]; where the source can overflow, the wrap-around
      to 64 bits is written out ([int_wrap]).
    - A Go [string] is a [string] (a sequence of bytes); [len] is
      [String.length].
    - A Go [error] value is a member of the inductive type [error]; a Go
      result [(v, err)] is the pair [(v, e)] with [e : option error] and
      [None] standing for [nil].
    - The objects the program mutates (the streams an [Env] points to, the
      process environment, the system clipboard and whatever a
      caller-supplied manager owns) are collected in a [World] that every
      effectful function takes and returns.
    - A [panic] is the outcome [Panicked]. *)

From Stdlib Require Import ZArith String Ascii List Lia DecimalString DecimalPos.
From stdpp Require Import base option strings gmap.
Import ListNotations.

Local Open Scope string_scope.
Local Open Scope Z_scope.

(** ** The error values of the package and of the standard library *)

Inductive error : Type :=
  | ErrInvalidPartType                (* var ErrInvalidPartType = errors.New(...) *)
  | ErrMissingPart                    (* var ErrMissingPart = errors.New(...) *)
  | InvalidPartError (Part : Z)       (* type InvalidPartError struct { Part int } *)
  | IOReadError (Err : error)         (* type IOReadError struct { Err error } *)
  | IOWriteError (Err : error)        (* type IOWriteError struct { Err error } *)
  | EOF                               (* io.EOF *)
  | ErrHelp                           (* flag.ErrHelp *)
  | errorString (msg : string).       (* any other errors.New(msg) *)

#[global] Instance error_eq_dec : EqDecision error.
Proof. solve_decision. Defined.


(** [errors.Is(err, target)]: [err] or some error in its [Unwrap] chain is
    [target]. *)
Fixpoint errors_Is (err target : error) : bool :=
  if decide (err = target) then true
  else match err with
       | IOReadError Err => errors_Is Err target
       | IOWriteError Err => errors_Is Err target
       | _ => false
       end.

(** ** strconv *)

(** [strconv.Itoa]: the decimal rendering of an [int]. *)
Definition Itoa (i : Z) : string := NilZero.string_of_int (Z.to_int i).

Definition int_min : Z := - 2 ^ 63.
Definition int_max : Z := 2 ^ 63 - 1.

(** Arithmetic on [int] wraps around at 64 bits. *)
Definition int_wrap (z : Z) : Z := (z + 2 ^ 63) mod 2 ^ 64 - 2 ^ 63.

Definition is_digit (c : ascii) : bool :=
  (48 <=? nat_of_ascii c)%nat && (nat_of_ascii c <=? 57)%nat.

(** The digit loop of [strconv.ParseUint] in base 10: every byte must be
    a decimal digit ([_] is rejected because the base is not 0). The
    accumulator is unbounded here; the range check follows in [Atoi]. *)
Fixpoint parse_digits (s : string) (acc : Z) : option Z :=
  match s with
  | EmptyString => Some acc
  | String c rest =>
      if is_digit c
      then parse_digits rest (acc * 10 + (Z.of_nat (nat_of_ascii c) - 48))
      else None
  end.

(** [strconv.Atoi]: [ParseInt(s, 10, 0)] on a 64-bit platform. An empty
    string, a lone sign, a byte that is not a digit (syntax error) and a
    value outside [int] (range error) all give an error; the caller only
    tests [err != nil], so the error is [None] here. *)
Definition Atoi (s : string) : option Z :=
  match s with
  | EmptyString => None
  | String c rest =>
      let neg := bool_decide (c = "-"%char) in
      let digits := if bool_decide (c = "+"%char) || neg then rest else s in
      match digits with
      | EmptyString => None
      | _ =>
          match parse_digits digits 0 with
          | None => None
          | Some un =>
              if negb neg && (2 ^ 63 <=? un) then None
              else if neg && (2 ^ 63 <? un) then None
              else Some (if neg then - un else un)
          end
      end
  end.

(** The strings [Atoi] is meant for: an optional sign and at least one
    decimal digit. *)
Fixpoint all_digits (s : string) : bool :=
  match s with
  | EmptyString => true
  | String c rest => is_digit c && all_digits rest
  end.

Definition is_numeral (s : string) : bool :=
  match s with
  | EmptyString => false
  | String c rest =>
      let body :=
        if bool_decide (c = "+"%char) || bool_decide (c = "-"%char) then rest else s in
      negb (bool_decide (body = EmptyString)) && all_digits body
  end.

(** [Error()] of every error value. *)
Fixpoint Error (e : error) : string :=
  match e with
  | ErrInvalidPartType => "invalid part type. The part type allowed is int"
  | ErrMissingPart => "no part specified, please provide a valid part"
  | InvalidPartError Part =>
      "invalid part: " +:+ Itoa Part +:+ ". The valid parts are (1/2)"
  | IOReadError Err => "failed to read input: " +:+ Error Err
  | IOWriteError Err => "failed to write input: " +:+ Error Err
  | EOF => "EOF"
  | ErrHelp => "flag: help requested"
  | errorString msg => msg
  end.

(** ** Streams: io.Writer and io.Reader *)

(** The two writers the package is run against: one that accumulates what
    is written ([bytes.Buffer], a working terminal) and one that rejects
    every write with [err] (the [failingWriter] of the tests, a closed
    descriptor). *)
Inductive Writer : Type :=
  | Buffer (content : string)
  | FailingWriter (err : error).

(** [w.Write(p)]: the error and the writer afterwards. *)
Definition Writer_Write (w : Writer) (p : string) : option error * Writer :=
  match w with
  | Buffer content => (None, Buffer (content +:+ p))
  | FailingWriter err => (Some err, w)
  end.

(** A reader delivers the bytes of [pending] and then ends: with [io.EOF]
    when [ending] is [None] (as [bytes.NewBufferString] does), with the
    error [e] when it is [Some e]. *)
Record Reader : Type := mkReader { pending : string; ending : option error }.

Definition NewBufferString (s : string) : Reader := mkReader s None.

(** What [ss.getRune] sees once [pending] is used up: [None] for [eof]
    (the reader returned [io.EOF]), [Some e] for any other error, which
    [getRune] raises through [s.error]. *)
Definition at_end (ending : option error) : option error :=
  match ending with
  | Some e => if decide (e = EOF) then None else Some e
  | None => None
  end.

(** ** fmt: printing *)

(** [fmt.Fprintf(w, "%s%s", a, b)] and friends: the formatted text is
    handed to the writer in one [Write]. *)
Definition Fprint (w : Writer) (text : string) : option error * Writer :=
  Writer_Write w text.

Definition newline : string := String (ascii_of_nat 10) EmptyString.
Definition tab : string := String (ascii_of_nat 9) EmptyString.

Definition Fprintln (w : Writer) (text : string) : option error * Writer :=
  Fprint w (text +:+ newline).

(** ** fmt: scanning one word with Fscanln *)

(** [fmt.isSpace] on the ASCII range: tab, line feed, vertical tab, form
    feed, carriage return and space. Bytes are taken as runes; the
    multi-byte spaces of Unicode are outside this model. *)
Definition isSpace (c : ascii) : bool :=
  let n := nat_of_ascii c in
  ((9 <=? n)%nat && (n <=? 13)%nat) || (n =? 32)%nat.

Definition is_nl (c : ascii) : bool := (nat_of_ascii c =? 10)%nat.
Definition is_cr (c : ascii) : bool := (nat_of_ascii c =? 13)%nat.

(** The result of a scanning step: it went through and left [rest]
    unread, or it raised [scanError] / [io.EOF]. *)
Inductive scan (A : Type) : Type :=
  | ScanOk (a : A) (rest : string)
  | ScanErr (e : error) (rest : string).
Arguments ScanOk {A} a rest.
Arguments ScanErr {A} e rest.

Section Scanning.
(** How the reader behind the scan state ends. *)
Variable ending : option error.

(** [ss.SkipSpace] with [nlIsSpace = false]: a carriage return is
    dropped (whether or not a line feed follows, since it is a space
    too; only the [peek] may hit the reader's error), a line feed is
    the error "unexpected newline", the first rune that is no space is
    put back. *)
Fixpoint SkipSpace (s : string) : scan unit :=
  match s with
  | EmptyString =>
      match at_end ending with
      | Some e => ScanErr e s
      | None => ScanOk tt s
      end
  | String r rest =>
      if is_cr r then
        match rest, at_end ending with
        | EmptyString, Some e => ScanErr e rest
        | _, _ => SkipSpace rest
        end
      else if is_nl r then ScanErr (errorString "unexpected newline") rest
      else if isSpace r then SkipSpace rest
      else ScanOk tt s
  end.

(** [ss.notEOF]: raises [io.EOF] when nothing is left. *)
Definition notEOF (s : string) : scan unit :=
  match s with
  | EmptyString =>
      match at_end ending with
      | Some e => ScanErr e s
      | None => ScanErr EOF s
      end
  | _ => ScanOk tt s
  end.

(** [ss.token(true, notSpace)] after the spaces are skipped: the runes
    up to the next space or the end of the input. *)
Fixpoint token (s : string) : scan string :=
  match s with
  | EmptyString =>
      match at_end ending with
      | Some e => ScanErr e s
      | None => ScanOk EmptyString s
      end
  | String r rest =>
      if isSpace r then ScanOk EmptyString s
      else match token rest with
           | ScanOk word rest' => ScanOk (String r word) rest'
           | ScanErr e rest' => ScanErr e rest'
           end
  end.

(** The end of [ss.doScan] with [nlIsEnd = true]: spaces up to a line
    feed or the end of the input; anything else is "expected newline". *)
Fixpoint expect_newline (s : string) : scan unit :=
  match s with
  | EmptyString =>
      match at_end ending with
      | Some e => ScanErr e s
      | None => ScanOk tt s
      end
  | String r rest =>
      if is_nl r then ScanOk tt rest
      else if isSpace r then expect_newline rest
      else ScanErr (errorString "expected newline") rest
  end.
End Scanning.

(** [fmt.Fscanln(r, &part)] for one [*string] operand whose variable
    holds [part0]: the variable afterwards, the error and the reader
    afterwards. The variable is assigned once the word is read, also when
    the check for the end of the line fails after it. *)
Definition Fscanln (r : Reader) (part0 : string) : string * option error * Reader :=
  let after rest := mkReader rest (ending r) in
  match SkipSpace (ending r) (pending r) with
  | ScanErr e rest => (part0, Some e, after rest)
  | ScanOk _ rest =>
      match notEOF (ending r) rest with
      | ScanErr e rest => (part0, Some e, after rest)
      | ScanOk _ rest =>
          match token (ending r) rest with
          | ScanErr e rest => (part0, Some e, after rest)
          | ScanOk word rest =>
              match expect_newline (ending r) rest with
              | ScanErr e rest => (word, Some e, after rest)
              | ScanOk _ rest => (word, None, after rest)
              end
          end
      end
  end.

(** ** flag: the FlagSet of getPartInFlag

    [flag.NewFlagSet("goaoc", flag.ContinueOnError)] with its output set
    to the writer [out], the usage function of [getPartInFlag] and the
    single flag [-part], a string bound to the variable [part]. *)

(** The first [=] of [s]: what is before it and what is after it. *)
Fixpoint cut_equals (s : string) : option (string * string) :=
  match s with
  | EmptyString => None
  | String c rest =>
      if bool_decide (c = "="%char) then Some (EmptyString, rest)
      else match cut_equals rest with
           | Some (before, after) => Some (String c before, after)
           | None => None
           end
  end.

(** [fs.Usage]: the line of the closure in [getPartInFlag], then
    [fs.PrintDefaults()]. The error of the first write is stored in the
    result variable [err] and overwritten by that of [Parse]. *)
Definition Usage (out : Writer) : Writer :=
  let out := snd (Fprint out ("Usage: " +:+ "goaoc" +:+ " [options]" +:+ newline)) in
  snd (Fprint out ("  -part string" +:+ newline +:+ "    " +:+ tab
                   +:+ "Part of the challenge, valid values are (1/2)" +:+ newline)).

(** [fs.failf]: the message goes to the output, followed by the usage,
    and comes back as an error. *)
Definition failf (msg : string) (out : Writer) : error * Writer :=
  let out := snd (Fprintln out msg) in
  (errorString msg, Usage out).

(** [fs.Parse(args)], the loop over [fs.parseOne]: the value of [part]
    afterwards, the error and the output afterwards. Parsing stops
    without error at the first argument that is no flag and after [--];
    the string flag takes its value after [=] or from the next argument;
    when the flag is repeated, its last value stays. *)
Fixpoint Parse (args : list string) (part : string) (out : Writer)
  : string * option error * Writer :=
  match args with
  | [] => (part, None, out)
  | s :: rest =>
      match s with
      | String c0 (String c1 s2) =>
          if negb (bool_decide (c0 = "-"%char)) then (part, None, out) else
          let two := bool_decide (c1 = "-"%char) in
          if two && bool_decide (s2 = EmptyString) then (part, None, out)
          else
            let name := if two then s2 else String c1 s2 in
            match name with
            | EmptyString =>
                let '(err, out) := failf ("bad flag syntax: " +:+ s) out in
                (part, Some err, out)
            | String n0 nrest =>
                if bool_decide (n0 = "-"%char) || bool_decide (n0 = "="%char) then
                  let '(err, out) := failf ("bad flag syntax: " +:+ s) out in
                  (part, Some err, out)
                else
                  let '(name, value) :=
                    match cut_equals nrest with
                    | Some (before, after) => (String n0 before, Some after)
                    | None => (name, None)
                    end in
                  if bool_decide (name = "part") then
                    match value, rest with
                    | Some v, _ => Parse rest v out
                    | None, v :: rest' => Parse rest' v out
                    | None, [] =>
                        let '(err, out) :=
                          failf ("flag needs an argument: -" +:+ name) out in
                        (part, Some err, out)
                    end
                  else if bool_decide (name = "help") || bool_decide (name = "h") then
                    (part, Some ErrHelp, Usage out)
                  else
                    let '(err, out) :=
                      failf ("flag provided but not defined: -" +:+ name) out in
                    (part, Some err, out)
            end
      | _ => (part, None, out)
      end
  end.

(** ** io.go: Env, the process state and the default console manager *)

Record Env : Type := mkEnv {
  Stdin : Reader;
  Stdout : Writer;
  Args : list string
}.

(** The system clipboard behind [clipboard.New().CopyText]: its text, and
    the error the copy command fails with, if it does. *)
Record Clipboard : Type := mkClipboard {
  clip_text : string;
  clip_fault : option error
}.

Definition CopyText (value : string) (c : Clipboard) : option error * Clipboard :=
  match clip_fault c with
  | Some err => (Some err, c)
  | None => (None, mkClipboard value None)
  end.

(** Everything a run can read or change: [env] is the [Env] of the
    console manager in use (the streams it points to and the arguments),
    [environ] the environment variables of the process, [clipboard] the
    system clipboard, [user] the objects of a caller-supplied manager. *)
Record World (U : Type) : Type := mkWorld {
  env : Env;
  environ : gmap string string;
  clipboard : Clipboard;
  user : U
}.
Arguments mkWorld {U} env environ clipboard user.
Arguments env {U} w.
Arguments environ {U} w.
Arguments clipboard {U} w.
Arguments user {U} w.

Definition set_Stdout (out : Writer) (e : Env) : Env :=
  mkEnv (Stdin e) out (Args e).
Definition set_Stdin (r : Reader) (e : Env) : Env :=
  mkEnv r (Stdout e) (Args e).
Definition set_env {U} (e : Env) (w : World U) : World U :=
  mkWorld e (environ w) (clipboard w) (user w).
Definition set_clipboard {U} (c : Clipboard) (w : World U) : World U :=
  mkWorld (env w) (environ w) c (user w).
Definition set_user {U} (u : U) (w : World U) : World U :=
  mkWorld (env w) (environ w) (clipboard w) u.

(** [os.Getenv]: the empty string when the variable is not set. *)
Definition Getenv {U} (key : string) (w : World U) : string :=
  default EmptyString (environ w !! key).

(** A panic carries the value it was raised with. *)
Inductive result (A : Type) : Type :=
  | Value (a : A)
  | Panic (v : error).
Arguments Value {A} a.
Arguments Panic {A} v.

(** ** Challenge and Part *)

Definition Challenge : Type := string -> Z.
Definition Part : Type := Z.

Definition NewPart (p : Z) : Part * option error :=
  if negb (p =? 1) && negb (p =? 2) then (0, Some (InvalidPartError p))
  else (p, None).

Section Goaoc.
Context {U : Type}.

Local Abbreviation World := (World U).

(** *** io.go *)

Definition getPartInFlag (w : World) : (string * option error) * World :=
  let e := env w in
  let '(part, err, out) := Parse (Args e) EmptyString (Stdout e) in
  let w := set_env (set_Stdout out e) w in
  match err with
  | Some err => ((EmptyString, Some (IOReadError err)), w)
  | None => ((part, None), w)
  end.

Definition getPartInEnv (w : World) : (string * option error) * World :=
  let part := Getenv "GOAOC_CHALLENGE_PART" w in
  ((part, None), w).

Definition getPartInStdin (w : World) : (string * option error) * World :=
  let e := env w in
  let '(err, out) := Fprintln (Stdout e) "Which part do you want to run? (1/2)" in
  let e := set_Stdout out e in
  match err with
  | Some err => ((EmptyString, Some err), set_env e w)
  | None =>
      let '(part, err, r) := Fscanln (Stdin e) EmptyString in
      let w := set_env (set_Stdin r e) w in
      match err with
      | Some err =>
          if errors_Is err EOF
          then ((EmptyString, Some (IOReadError ErrMissingPart)), w)
          else ((part, None), w)
      | None => ((part, None), w)
      end
  end.

(** A source of the selector: [func() (string, error)]. *)
Definition check : Type := World -> (string * option error) * World.

(** The loop of [Read] over [checks]; [part] is the result variable,
    which the statement after the loop returns with the error. *)
Fixpoint run_checks (checks : list check) (part : string) (w : World)
  : (string * option error) * World :=
  match checks with
  | [] => ((part, Some (IOReadError ErrMissingPart)), w)
  | check :: checks =>
      let '((part, err), w) := check w in
      match err with
      | Some err => ((EmptyString, Some err), w)
      | None =>
          if bool_decide (part <> EmptyString) then ((part, None), w)
          else run_checks checks part w
      end
  end.

Definition checks : list check := [getPartInFlag; getPartInEnv; getPartInStdin].

Definition DefaultConsoleManager_Read (arg : string) (w : World)
  : (string * option error) * World :=
  if bool_decide (arg <> "part") then ((EmptyString, None), w)
  else run_checks checks EmptyString w.

Definition toClipboard (value : string) (w : World) : World :=
  let envVar := Getenv "GOAOC_DISABLE_COPY_CLIPBOARD" w in
  if bool_decide (envVar = "true") then w
  else
    let '(err, c) := CopyText value (clipboard w) in
    let w := set_clipboard c w in
    let e := env w in
    match err with
    | Some err =>
        let out := snd (Fprint (Stdout e)
                          ("Error copying to clipboard: " +:+ Error err +:+ newline)) in
        set_env (set_Stdout out e) w
    | None =>
        let out := snd (Fprint (Stdout e)
                          ("Copied to clipboard: " +:+ value +:+ newline)) in
        set_env (set_Stdout out e) w
    end.

Definition DefaultConsoleManager_Write (result : string) (w : World)
  : option error * World :=
  let e := env w in
  let '(err, out) :=
    Fprint (Stdout e) ("The challenge result is " +:+ result +:+ newline) in
  let w := set_env (set_Stdout out e) w in
  match err with
  | Some err => (Some (IOWriteError err), w)
  | None => (None, toClipboard result w)
  end.

(** *** The runner: options, dispatch and Run *)

(** The interface [IOManager]: the two methods of a manager, acting on
    the world. *)
Record IOManager : Type := mkIOManager {
  Write : string -> World -> option error * World;
  Read : string -> World -> (string * option error) * World
}.

(** [DefaultConsoleManager{Env: e}] run in a world whose [env] is [e]. *)
Definition DefaultConsoleManager : IOManager :=
  mkIOManager DefaultConsoleManager_Write DefaultConsoleManager_Read.

(** [NewConsoleManager()]: the manager over [defaultConsoleEnv]. *)
Definition NewConsoleManager : IOManager := DefaultConsoleManager.

(** [manager] is [None] for the nil interface. *)
Record runOptions : Type := mkRunOptions {
  manager : option IOManager;
  part : Part
}.

Definition RunOption : Type := runOptions -> runOptions * option error.

Definition WithManager (m : IOManager) : RunOption :=
  fun options => (mkRunOptions (Some m) (part options), None).

Definition WithPart (p : Z) : RunOption :=
  fun options => (mkRunOptions (manager options) p, None).

Definition executeChallenge (input : string) (partOne partTwo : Challenge)
    (p : Part) : result Z :=
  if p =? 1 then Value (partOne input)
  else if p =? 2 then Value (partTwo input)
  else Panic ErrMissingPart.

(** The first loop of [injectOptions]: every option is applied and its
    error dropped. *)
Definition apply_options (opts : runOptions) (options : list RunOption)
  : runOptions :=
  fold_left (fun opts option => fst (option opts)) options opts.

(** The manager a method call on [opts.manager] reaches; the interface
    is never nil where it is called. *)
Definition the_manager (opts : runOptions) : IOManager :=
  default NewConsoleManager (manager opts).

Definition injectOptions (opts : runOptions) (options : list RunOption)
    (w : World) : option error * runOptions * World :=
  let opts := apply_options opts options in
  let opts :=
    match manager opts with
    | None => mkRunOptions (Some NewConsoleManager) (part opts)
    | Some _ => opts
    end in
  if part opts =? 0 then
    let '((partStr, err), w) := Read (the_manager opts) "part" w in
    match err with
    | Some err => (Some err, opts, w)
    | None =>
        match Atoi partStr with
        | None => (Some ErrInvalidPartType, opts, w)
        | Some p =>
            let '(p, err) := NewPart p in
            let opts := mkRunOptions (manager opts) p in
            match err with
            | Some err => (Some err, opts, w)
            | None => (None, opts, w)
            end
        end
    end
  else (None, opts, w).

(** What a call of [Run] ends in: it returns an error or nil, or it
    panics. *)
Inductive outcome : Type :=
  | Returned (err : option error)
  | Panicked (v : error).

Definition Run (input : string) (partOne partTwo : Challenge)
    (options : list RunOption) (w : World) : outcome * World :=
  let '(err, opts, w) := injectOptions (mkRunOptions None 0) options w in
  match err with
  | Some err => (Returned (Some err), w)
  | None =>
      match executeChallenge input partOne partTwo (part opts) with
      | Panic v => (Panicked v, w)
      | Value result =>
          let '(err, w) := Write (the_manager opts) (Itoa result) w in
          match err with
          | Some err => (Returned (Some err), w)
          | None => (Returned None, w)
          end
      end
  end.
End Goaoc.

(** ** example/main.go *)

Definition partOne : Challenge := fun input => Z.of_nat (String.length input).
Definition partTwo : Challenge :=
  fun input => int_wrap (Z.of_nat (String.length input) * 2).

(** ** Package mock: the manager of the tests *)

Module mock.
(** The manager writes to a buffer of its own, which is the [user] part
    of the world. *)
Record Manager : Type := NewManager {
  mpart : string;
  errSelectPart : option error;
  errOutput : option error
}.

Definition formatResult (result : string) : string :=
  "The challenge result is " +:+ result +:+ newline.

Definition Manager_Read (m : Manager) (_ : string) (w : World Writer)
  : (string * option error) * World Writer :=
  ((mpart m, errSelectPart m), w).

Definition Manager_Write (m : Manager) (result : string) (w : World Writer)
  : option error * World Writer :=
  match errOutput m with
  | Some err => (Some err, w)
  | None =>
      let '(err, out) := Writer_Write (user w) (formatResult result) in
      (err, set_user out w)
  end.

Definition as_IOManager (m : Manager) : IOManager (U := Writer) :=
  mkIOManager (Manager_Write m) (Manager_Read m).

Definition GetStdout (w : World Writer) : string :=
  match user w with
  | Buffer content => content
  | FailingWriter _ => EmptyString
  end.
End mock.

(** ** Notions used in the statements *)

Section Notions.
Context {U : Type}.

Local Abbreviation World := (World U).

(** The options a run starts from: [var opts runOptions]. *)
Definition zero_options : runOptions (U := U) := mkRunOptions None 0.

(** The manager [m] with its [Read] method replaced by [rd]. *)
Definition withRead (rd : string -> World -> (string * option error) * World)
    (m : IOManager) : IOManager :=
  mkIOManager (Write m) rd.

(** Dispatch on [p] and report through [m], with nothing read: what is
    left of [Run] once the selector is known. *)
Definition dispatch_and_report (m : IOManager) (input : string)
    (partOne partTwo : Challenge) (p : Part) (w : World) : outcome * World :=
  match executeChallenge input partOne partTwo p with
  | Panic v => (Panicked v, w)
  | Value result =>
      let '(err, w) := Write m (Itoa result) w in (Returned err, w)
  end.

(** Run from [w], every source of [cs] returns the empty string and no
    error, and the world is [w'] afterwards. *)
Inductive all_empty : list check -> World -> World -> Prop :=
  | all_empty_nil w : all_empty [] w w
  | all_empty_cons (c : check) cs w w1 w2 :
      c w = ((EmptyString, None), w1) ->
      all_empty cs w1 w2 ->
      all_empty (c :: cs) w w2.

(** The world [w] with [out] as the output sink of its [env]. *)
Definition with_Stdout (out : Writer) (w : World) : World :=
  set_env (set_Stdout out (env w)) w.

(** What the output sink of [w] holds. *)
Definition output (w : World) : Writer := Stdout (env w).
End Notions.

(** The status line [toClipboard] prints after a copy of [value] that
    ended with [err]. *)
Definition clipboard_status (value : string) (err : option error) : string :=
  match err with
  | Some err => "Error copying to clipboard: " +:+ Error err +:+ newline
  | None => "Copied to clipboard: " +:+ value +:+ newline
  end.

(** A console world over buffers, as [mockEnv] of the tests builds it. *)
Definition console (args : list string) (input : string) (out : Writer)
    (vars : gmap string string) : World unit :=
  mkWorld (mkEnv (NewBufferString input) out args) vars
          (mkClipboard EmptyString None) tt.

(** The same with a reader that delivers [input] and then fails with [e]. *)
Definition console_failing_stdin (input : string) (e : error) : World unit :=
  mkWorld (mkEnv (mkReader input (Some e)) (Buffer EmptyString) [])
          ∅ (mkClipboard EmptyString None) tt.

(** A [Read] that returns an error, as that of the mock manager with
    [errSelectPart] set. *)
Definition failing_read : string -> World unit -> (string * option error) * World unit :=
  fun _ w => (("2", Some (errorString "error when calling Read")), w).

(** ** The fixtures of the tests *)

Definition mockPartOne : Challenge := fun _ => 42.
Definition mockPartTwo : Challenge := fun _ => 24.

(** The world of a run with [mock.NewManager]: an empty buffer of its
    own next to an empty console. *)
Definition mock_world : World Writer :=
  mkWorld (mkEnv (NewBufferString EmptyString) (Buffer EmptyString) [])
          ∅ (mkClipboard EmptyString None) (Buffer EmptyString).

Definition run_mock (m : mock.Manager) : outcome * World Writer :=
  Run "input" mockPartOne mockPartTwo [WithManager (mock.as_IOManager m)] mock_world.

(** [err.Error()] of the error a call returned, if it returned one. *)
Definition message (err : option error) : option string := Error <$> err.

Definition returned_message {U} (r : outcome * World U) : option string :=
  match fst r with
  | Returned err => message err
  | Panicked _ => None
  end.

(** ** Notions for the further properties *)


(** What [Usage] prints: the line of the closure of [getPartInFlag] and
    the defaults of the flag set. *)
Definition usage_text : string :=
  ("Usage: " +:+ "goaoc" +:+ " [options]" +:+ newline)
  +:+ ("  -part string" +:+ newline +:+ "    " +:+ tab
       +:+ "Part of the challenge, valid values are (1/2)" +:+ newline).

(** What a failed [Parse] prints before the usage: the message of the
    error and a line feed, except for a request of help. *)
Definition failure_text (err : error) : string :=
  if decide (err = ErrHelp) then EmptyString else Error err +:+ newline.


(** A world in which the console and the buffer of a mock manager hold
    the same text and the copy to the clipboard is disabled. *)
Definition quiet_world (b : string) : World Writer :=
  mkWorld (mkEnv (NewBufferString EmptyString) (Buffer b) [])
          {["GOAOC_DISABLE_COPY_CLIPBOARD" := "true"]}
          (mkClipboard EmptyString None) (Buffer b).


(** [w'] has the environment variables, the caller's objects and the
    arguments of [w]. *)
Definition same_setting {U} (w w' : World U) : Prop :=
  environ w' = environ w /\ user w' = user w /\ Args (env w') = Args (env w).

(** The sink of [w'] holds what that of [w] held, and maybe more after
    it; a sink that rejects writes stays as it is. *)
Definition output_extends {U} (w w' : World U) : Prop :=
  match output w with
  | Buffer b => exists suffix, output w' = Buffer (b +:+ suffix)
  | FailingWriter err => output w' = FailingWriter err
  end.

(** ** Basic facts *)

Lemma append_assoc (a b c : string) : (a +:+ b) +:+ c = a +:+ (b +:+ c).
Proof. induction a as [|x a IH]; [reflexivity | exact (f_equal (String x) IH)]. Qed.

Lemma append_empty_r (a : string) : a +:+ EmptyString = a.
Proof. induction a as [|x a IH]; [reflexivity | exact (f_equal (String x) IH)]. Qed.

(** [strconv.Atoi] accepts numerals only, and only within [int]. *)
Lemma parse_digits_None s : forall acc,
  parse_digits s acc = None <-> all_digits s = false.
Proof.
  induction s as [|c s IH]; intros acc; cbn.
  - split; discriminate.
  - destruct (is_digit c); cbn; [apply IH | split; reflexivity].
Qed.

Lemma parse_digits_nonneg s : forall acc un,
  0 <= acc -> parse_digits s acc = Some un -> 0 <= un.
Proof.
  induction s as [|c s IH]; intros acc un Hacc; cbn.
  - intros [= <-]. exact Hacc.
  - destruct (is_digit c) eqn:Hd; [|discriminate].
    apply IH. unfold is_digit in Hd.
    apply andb_true_iff in Hd as [Hlo _]. apply Nat.leb_le in Hlo. lia.
Qed.

Lemma Atoi_rejects_non_numerals s : is_numeral s = false -> Atoi s = None.
Proof.
  destruct s as [|c rest]; [reflexivity|].
  unfold is_numeral, Atoi. cbv zeta.
  match goal with
  | |- context [if ?sign then rest else String c rest] =>
      set (body := if sign then rest else String c rest)
  end.
  destruct body as [|d body']; [reflexivity|].
  intros Hd.
  rewrite bool_decide_eq_false_2 in Hd by discriminate. cbn [negb andb] in Hd.
  apply (parse_digits_None _ 0) in Hd. now rewrite Hd.
Qed.

Lemma Atoi_in_range s v : Atoi s = Some v -> int_min <= v <= int_max.
Proof.
  destruct s as [|c rest]; [discriminate|].
  unfold Atoi, int_min, int_max. cbv zeta.
  match goal with
  | |- context [if ?sign then rest else String c rest] =>
      set (body := if sign then rest else String c rest)
  end.
  destruct body as [|d body']; [discriminate|].
  destruct (parse_digits (String d body') 0) as [un|] eqn:HP; [|discriminate].
  apply parse_digits_nonneg in HP; [|lia].
  destruct (bool_decide (c = "-"%char)); cbn [negb andb].
  - destruct (2 ^ 63 <? un) eqn:E; [discriminate|].
    apply Z.ltb_ge in E. intros [= <-]. lia.
  - destruct (2 ^ 63 <=? un) eqn:E; [discriminate|].
    apply Z.leb_gt in E. intros [= <-]. lia.
Qed.

Section Resolution.
Context {U : Type}.

Local Abbreviation World := (World U).
Implicit Types (w : World) (m : IOManager (U := U)) (p : Z).

Lemma apply_options_app (opts : runOptions) (xs ys : list (RunOption (U := U))) :
  apply_options opts (xs ++ ys) = apply_options (apply_options opts xs) ys.
Proof. unfold apply_options. apply fold_left_app. Qed.

Lemma apply_options_cons (opts : runOptions) (x : RunOption (U := U)) xs :
  apply_options opts (x :: xs) = apply_options (fst (x opts)) xs.
Proof. reflexivity. Qed.

(** With a selector already set, [injectOptions] only fills in the
    default manager. *)
Lemma injectOptions_override opts options (mgr : option IOManager) p w :
  apply_options opts options = mkRunOptions mgr p ->
  p <> 0 ->
  injectOptions opts options w
  = (None, mkRunOptions (Some (default NewConsoleManager mgr)) p, w).
Proof.
  intros Happ Hp. unfold injectOptions. rewrite Happ.
  destruct mgr as [m|]; cbn [manager part default];
    (destruct (p =? 0) eqn:E; [apply Z.eqb_eq in E; contradiction | reflexivity]).
Qed.

(** Without one, it reads ["part"] from the manager, parses and
    validates. *)
Lemma injectOptions_chain opts options (mgr : option IOManager) w :
  apply_options opts options = mkRunOptions mgr 0 ->
  injectOptions opts options w
  = let m := default NewConsoleManager mgr in
    let '((partStr, err), w1) := Read m "part" w in
    match err with
    | Some err => (Some err, mkRunOptions (Some m) 0, w1)
    | None =>
        match Atoi partStr with
        | None => (Some ErrInvalidPartType, mkRunOptions (Some m) 0, w1)
        | Some v =>
            match snd (NewPart v) with
            | Some err => (Some err, mkRunOptions (Some m) (fst (NewPart v)), w1)
            | None => (None, mkRunOptions (Some m) (fst (NewPart v)), w1)
            end
        end
    end.
Proof.
  intros Happ. unfold injectOptions. rewrite Happ.
  destruct mgr as [m|]; cbn [manager part default the_manager Z.eqb];
    (destruct (Read _ "part" w) as [[partStr err] w1];
     destruct err; [reflexivity|];
     destruct (Atoi partStr); [|reflexivity];
     destruct (NewPart _) as [q [e|]]; reflexivity).
Qed.

Lemma Run_override input (partOne partTwo : Challenge) options
    (mgr : option IOManager) p w :
  apply_options zero_options options = mkRunOptions mgr p ->
  p <> 0 ->
  Run input partOne partTwo options w
  = dispatch_and_report (default NewConsoleManager mgr) input partOne partTwo p w.
Proof.
  intros Happ Hp. unfold Run, dispatch_and_report. unfold zero_options in Happ.
  rewrite (injectOptions_override _ _ mgr p w Happ Hp).
  cbn [part the_manager manager default].
  destruct (executeChallenge input partOne partTwo p); [|reflexivity].
  destruct (Write _ _ w) as [[e|] w']; reflexivity.
Qed.
End Resolution.

(** ** The reporter: DefaultConsoleManager.Write and toClipboard *)

Section Reporter.
Context {U : Type}.

Local Abbreviation World := (World U).
Implicit Types (w : World).

Lemma world_eta w : mkWorld (env w) (environ w) (clipboard w) (user w) = w.
Proof. destruct w; reflexivity. Qed.

Lemma with_Stdout_same w : with_Stdout (Stdout (env w)) w = w.
Proof. destruct w as [[i o a] vars c u]; reflexivity. Qed.

Lemma Getenv_true key w :
  Getenv key w = "true" <-> environ w !! key = Some "true".
Proof.
  unfold Getenv. destruct (environ w !! key) as [v|]; simpl; split;
    intros H; try congruence; discriminate.
Qed.

Lemma toClipboard_disabled value w :
  environ w !! "GOAOC_DISABLE_COPY_CLIPBOARD" = Some "true" ->
  toClipboard value w = w.
Proof.
  intros H. unfold toClipboard.
  rewrite bool_decide_eq_true_2; [reflexivity | now apply Getenv_true].
Qed.

Lemma toClipboard_enabled value w b :
  environ w !! "GOAOC_DISABLE_COPY_CLIPBOARD" <> Some "true" ->
  output w = Buffer b ->
  toClipboard value w
  = mkWorld
      (set_Stdout
         (Buffer (b +:+ clipboard_status value (fst (CopyText value (clipboard w)))))
         (env w))
      (environ w) (snd (CopyText value (clipboard w))) (user w).
Proof.
  intros H Hb. unfold toClipboard, output in *.
  rewrite bool_decide_eq_false_2 by (rewrite Getenv_true; exact H).
  destruct (CopyText value (clipboard w)) as [[e|] c];
    cbn [set_clipboard env environ clipboard user fst snd];
    rewrite Hb; reflexivity.
Qed.

(** On a working sink the result line is written first, then the
    clipboard step runs. *)
Lemma Write_console result w b :
  output w = Buffer b ->
  Write DefaultConsoleManager result w
  = (None,
     toClipboard result
       (with_Stdout (Buffer (b +:+ "The challenge result is " +:+ result +:+ newline)) w)).
Proof.
  intros Hb. unfold output in Hb.
  cbn [Write DefaultConsoleManager]. unfold DefaultConsoleManager_Write.
  rewrite Hb. reflexivity.
Qed.

(** On a sink that rejects the line, [Write] returns the error wrapped
    and changes nothing. *)
Lemma Write_console_failing result w err :
  output w = FailingWriter err ->
  Write DefaultConsoleManager result w = (Some (IOWriteError err), w).
Proof.
  intros Hb. destruct w as [[i o a] vars c u].
  unfold output in Hb. cbn in Hb. subst o. reflexivity.
Qed.

(** What the sink holds after a successful [Write]: the old content,
    the result line and the status of the clipboard step, which is
    empty when the copy is disabled. *)
Lemma Write_console_output result w b :
  output w = Buffer b ->
  exists w' status,
    Write DefaultConsoleManager result w = (None, w')
    /\ output w'
       = Buffer (b +:+ ("The challenge result is " +:+ result +:+ newline) +:+ status)
    /\ (environ w !! "GOAOC_DISABLE_COPY_CLIPBOARD" = Some "true" ->
        status = EmptyString).
Proof.
  intros Hb. rewrite (Write_console result w b Hb).
  set (line := "The challenge result is " +:+ result +:+ newline).
  destruct (decide (environ w !! "GOAOC_DISABLE_COPY_CLIPBOARD" = Some "true"))
    as [Hd|Hd].
  - exists (with_Stdout (Buffer (b +:+ line)) w), EmptyString.
    split; [|split].
    + f_equal. now apply toClipboard_disabled.
    + unfold output. cbn [with_Stdout set_env env set_Stdout Stdout].
      now rewrite append_empty_r.
    + reflexivity.
  - rewrite (toClipboard_enabled result (with_Stdout (Buffer (b +:+ line)) w)
               (b +:+ line) Hd eq_refl).
    eexists _, _. split; [reflexivity|split].
    + unfold output. cbn [env set_Stdout Stdout]. f_equal. apply append_assoc.
    + intros H. contradiction.
Qed.
End Reporter.

(** ** Claims on the selector override and the dispatcher *)

Section Override.
Context {U : Type}.

Local Abbreviation World := (World U).
Implicit Types (w : World) (m : IOManager (U := U)) (p : Z).

Lemma apply_managers (opts : runOptions (U := U)) (ms : list IOManager) :
  part (apply_options opts (map WithManager ms)) = part opts.
Proof.
  revert opts. induction ms as [|m ms IH]; intros opts; [reflexivity|].
  cbn [map]. rewrite apply_options_cons, IH. reflexivity.
Qed.

(** A [WithPart p] followed by managers only leaves [p] selected. *)
Lemma apply_override (opts : runOptions (U := U)) (before : list RunOption)
    (ms : list IOManager) p :
  exists mgr,
    apply_options opts (before ++ WithPart p :: map WithManager ms)
    = mkRunOptions mgr p.
Proof.
  exists (manager (apply_options opts (before ++ WithPart p :: map WithManager ms))).
  rewrite apply_options_app, apply_options_cons.
  set (o := fst (WithPart p _)).
  pose proof (apply_managers o ms) as Hp.
  destruct (apply_options o (map WithManager ms)) as [mgr q].
  cbn in Hp |- *. now subst q.
Qed.

(** A run with a forced part on a working console: the value the
    dispatcher obtains is rendered in the result line. *)
Lemma Run_forced_part input (f g : Challenge) p (r : Z) w (b : string) :
  output w = Buffer b ->
  executeChallenge input f g p = Value r ->
  exists w' status,
    Run input f g [WithPart p] w = (Returned None, w')
    /\ output w'
       = Buffer (b +:+ ("The challenge result is " +:+ Itoa r +:+ newline) +:+ status)
    /\ (environ w !! "GOAOC_DISABLE_COPY_CLIPBOARD" = Some "true" ->
        status = EmptyString).
Proof.
  intros Hb Hexec.
  assert (Hp : p <> 0) by (intros ->; discriminate Hexec).
  rewrite (Run_override input f g [WithPart p] None p w eq_refl Hp).
  destruct (Write_console_output (Itoa r) w b Hb) as (w' & status & HW & Hout & Hs).
  exists w', status. split; [|split]; [|exact Hout|exact Hs].
  unfold dispatch_and_report. rewrite Hexec.
  cbn [default]. unfold NewConsoleManager. rewrite HW. reflexivity.
Qed.

(** The same run on a sink that rejects the line. *)
Lemma Run_forced_part_failing input (f g : Challenge) p (r : Z) w err :
  output w = FailingWriter err ->
  executeChallenge input f g p = Value r ->
  Run input f g [WithPart p] w = (Returned (Some (IOWriteError err)), w).
Proof.
  intros Hb Hexec.
  assert (Hp : p <> 0) by (intros ->; discriminate Hexec).
  rewrite (Run_override input f g [WithPart p] None p w eq_refl Hp).
  unfold dispatch_and_report. rewrite Hexec.
  cbn [default]. unfold NewConsoleManager.
  rewrite (Write_console_failing (Itoa r) w err Hb). reflexivity.
Qed.

(** C1. For the input "abc" and the functions len and len*2 of the
    example, a run with the selector forced to 1 writes exactly the
    line "The challenge result is 3" to the console and returns nil, and
    with the selector forced to 2 the line "The challenge result is 6";
    what follows the line is the status of the clipboard step, which is
    empty when the copy is disabled. Only a console that rejects the
    line makes the run write nothing and return that failure. The
    dispatcher calls the first function for 1 and the second for 2. *)
Theorem end_to_end_abc w :
  match output w with
  | Buffer b =>
      exists w' status,
        Run "abc" partOne partTwo [WithPart 1] w = (Returned None, w')
        /\ output w'
           = Buffer (b +:+ ("The challenge result is 3" +:+ newline) +:+ status)
        /\ (environ w !! "GOAOC_DISABLE_COPY_CLIPBOARD" = Some "true" ->
            status = EmptyString)
  | FailingWriter err =>
      Run "abc" partOne partTwo [WithPart 1] w
      = (Returned (Some (IOWriteError err)), w)
  end
  /\ match output w with
     | Buffer b =>
         exists w' status,
           Run "abc" partOne partTwo [WithPart 2] w = (Returned None, w')
           /\ output w'
              = Buffer (b +:+ ("The challenge result is 6" +:+ newline) +:+ status)
           /\ (environ w !! "GOAOC_DISABLE_COPY_CLIPBOARD" = Some "true" ->
               status = EmptyString)
     | FailingWriter err =>
         Run "abc" partOne partTwo [WithPart 2] w
         = (Returned (Some (IOWriteError err)), w)
     end
  /\ (forall input (f g : Challenge),
      executeChallenge input f g 1 = Value (f input)
      /\ executeChallenge input f g 2 = Value (g input)).
Proof.
  split; [|split].
  - destruct (output w) as [b|err] eqn:Hb.
    + exact (Run_forced_part "abc" partOne partTwo 1 3 w b Hb eq_refl).
    + exact (Run_forced_part_failing "abc" partOne partTwo 1 3 w err Hb eq_refl).
  - destruct (output w) as [b|err] eqn:Hb.
    + exact (Run_forced_part "abc" partOne partTwo 2 6 w b Hb eq_refl).
    + exact (Run_forced_part_failing "abc" partOne partTwo 2 6 w err Hb eq_refl).
  - intros input f g. split; reflexivity.
Qed.

(** C3. When a non-zero part is supplied through WithPart (whatever
    options come before it, and with any managers set after it), Run
    does not consult the source chain: it is the dispatch on that part
    followed by the manager's Write, run in the untouched world, and
    replacing the manager's Read by any other operation, one that
    returns an error included, does not change the run. *)
Theorem part_override_skips_read input (partOne partTwo : Challenge)
    (before : list (RunOption (U := U))) (ms : list IOManager) p w :
  p <> 0 ->
  let options := (before ++ WithPart p :: map WithManager ms)%list in
  let m := the_manager (apply_options zero_options options) in
  Run input partOne partTwo options w
  = dispatch_and_report m input partOne partTwo p w
  /\ forall rd,
      Run input partOne partTwo (options ++ [WithManager (withRead rd m)])%list w
      = Run input partOne partTwo options w.
Proof.
  intros Hp options m.
  destruct (apply_override zero_options before ms p) as [mgr Hmgr].
  fold options in Hmgr.
  assert (Hrun : Run input partOne partTwo options w
                 = dispatch_and_report m input partOne partTwo p w).
  { rewrite (Run_override input partOne partTwo options mgr p w Hmgr Hp).
    subst m. rewrite Hmgr. reflexivity. }
  split; [exact Hrun|].
  intros rd. rewrite Hrun.
  rewrite (Run_override input partOne partTwo
             (options ++ [WithManager (withRead rd m)])%list (Some (withRead rd m)) p w).
  - reflexivity.
  - rewrite apply_options_app, Hmgr. reflexivity.
  - exact Hp.
Qed.

(** C10. A part other than 0, 1 and 2 supplied through WithPart, such
    as WithPart(3), is not validated: Run returns no InvalidPartError
    (nor any other error) but panics with ErrMissingPart in the default
    branch of the dispatcher, before anything is read or written. *)
Theorem invalid_override_panics input (partOne partTwo : Challenge)
    (before : list (RunOption (U := U))) (ms : list IOManager) p w :
  p <> 0 -> p <> 1 -> p <> 2 ->
  Run input partOne partTwo (before ++ WithPart p :: map WithManager ms)%list w
  = (Panicked ErrMissingPart, w).
Proof.
  intros H0 H1 H2.
  destruct (apply_override zero_options before ms p) as [mgr Hmgr].
  rewrite (Run_override input partOne partTwo _ mgr p w Hmgr H0).
  unfold dispatch_and_report, executeChallenge.
  destruct (p =? 1) eqn:E1; [apply Z.eqb_eq in E1; contradiction|].
  destruct (p =? 2) eqn:E2; [apply Z.eqb_eq in E2; contradiction|].
  reflexivity.
Qed.
End Override.

(** ** The source chain of the default console manager *)

(** A parse that succeeds prints nothing. *)
Lemma Parse_silent (n : nat) :
  forall args part out v out',
    (length args <= n)%nat ->
    Parse args part out = (v, None, out') -> out' = out.
Proof.
  induction n as [|n IH]; intros args part out v out' Hlen HP.
  - destruct args; [|simpl in Hlen; lia]. cbn in HP. congruence.
  - destruct args as [|s rest]; [cbn in HP; congruence|].
    cbn [Parse] in HP. unfold failf in HP.
    simpl in Hlen.
    repeat case_match; simplify_eq; try reflexivity;
      (eapply IH; [|eassumption]; simpl in *; lia).
Qed.

Section Chain.
Context {U : Type}.

Local Abbreviation World := (World U).
Implicit Types (w : World) (c : check (U := U)) (cs : list (check (U := U))).

(** The first source that returns a non-empty string and no error ends
    the loop, whatever sources come after it. *)
Lemma run_checks_first_hit before c after part0 w w1 v w2 :
  all_empty before w w1 ->
  c w1 = ((v, None), w2) ->
  v <> EmptyString ->
  run_checks (before ++ c :: after) part0 w = ((v, None), w2).
Proof.
  intros Hbefore Hc Hv. revert part0.
  induction Hbefore as [w|c0 cs w wa wb Hc0 Hcs IH]; intros part0.
  - cbn [app run_checks]. rewrite Hc.
    rewrite bool_decide_eq_true_2 by exact Hv. reflexivity.
  - cbn [app run_checks]. rewrite Hc0.
    rewrite bool_decide_eq_false_2 by (intros H; now apply H).
    apply IH; assumption.
Qed.

(** The first source that returns an error ends it as well. *)
Lemma run_checks_first_error before c after part0 w w1 v err w2 :
  all_empty before w w1 ->
  c w1 = ((v, Some err), w2) ->
  run_checks (before ++ c :: after) part0 w = ((EmptyString, Some err), w2).
Proof.
  intros Hbefore Hc. revert part0.
  induction Hbefore as [w|c0 cs w wa wb Hc0 Hcs IH]; intros part0.
  - cbn [app run_checks]. rewrite Hc. reflexivity.
  - cbn [app run_checks]. rewrite Hc0.
    rewrite bool_decide_eq_false_2 by (intros H; now apply H).
    apply IH; assumption.
Qed.

(** When every source returns the empty string, the part is missing. *)
Lemma run_checks_all_empty cs w w1 :
  all_empty cs w w1 ->
  run_checks cs EmptyString w
  = ((EmptyString, Some (IOReadError ErrMissingPart)), w1).
Proof.
  induction 1 as [w|c0 cs w wa wb Hc0 Hcs IH]; [reflexivity|].
  cbn [run_checks]. rewrite Hc0.
  rewrite bool_decide_eq_false_2 by (intros H; now apply H).
  exact IH.
Qed.

Lemma Read_part w :
  Read DefaultConsoleManager "part" w = run_checks checks EmptyString w.
Proof. reflexivity. Qed.

Lemma getPartInFlag_ok w v out :
  Parse (Args (env w)) EmptyString (Stdout (env w)) = (v, None, out) ->
  getPartInFlag w = ((v, None), w).
Proof.
  intros HP. unfold getPartInFlag. rewrite HP.
  rewrite (Parse_silent _ _ _ _ _ _ (le_n _) HP).
  f_equal. apply with_Stdout_same.
Qed.

Lemma getPartInFlag_failed w v err out :
  Parse (Args (env w)) EmptyString (Stdout (env w)) = (v, Some err, out) ->
  getPartInFlag w = ((EmptyString, Some (IOReadError err)), with_Stdout out w).
Proof. intros HP. unfold getPartInFlag. rewrite HP. reflexivity. Qed.

(** C2. In the chain of the default console manager (flag, then
    environment variable, then prompt on stdin) the first source that
    returns a non-empty string decides what Read returns, and the
    result is the same whatever sources stand after it, so none of them
    is queried. In particular, when the flag yields a non-empty value
    and GOAOC_CHALLENGE_PART is set too, Read returns the flag's value.
    The order of the chain is flag, environment variable, stdin. *)
Theorem first_source_wins :
  (forall w w1 w2 before c after v,
      checks = (before ++ c :: after)%list ->
      all_empty before w w1 ->
      c w1 = ((v, None), w2) ->
      v <> EmptyString ->
      Read DefaultConsoleManager "part" w = ((v, None), w2)
      /\ forall later,
          run_checks (before ++ c :: later) EmptyString w = ((v, None), w2))
  /\ (forall w w1 flag_value env_value,
      getPartInFlag w = ((flag_value, None), w1) ->
      flag_value <> EmptyString ->
      environ w !! "GOAOC_CHALLENGE_PART" = Some env_value ->
      Read DefaultConsoleManager "part" w = ((flag_value, None), w1))
  /\ checks (U := U) = [getPartInFlag; getPartInEnv; getPartInStdin].
Proof.
  split; [|split; [|reflexivity]].
  - intros w w1 w2 before c after v Hchecks Hbefore Hc Hv. split.
    + rewrite Read_part, Hchecks.
      now apply run_checks_first_hit with (w1 := w1).
    + intros later. now apply run_checks_first_hit with (w1 := w1).
  - intros w w1 flag_value env_value Hflag Hv _.
    rewrite Read_part.
    apply (run_checks_first_hit [] getPartInFlag [getPartInEnv; getPartInStdin]
             EmptyString w w flag_value w1); [constructor | exact Hflag | exact Hv].
Qed.

(** C7. When the parse of the command-line flags fails, Read returns
    that failure at once, wrapped in IOReadError: the result is the
    same whatever sources stand after the flag source, so neither the
    environment variable nor stdin is consulted; the only trace left is
    the usage text on the output sink. *)
Theorem flag_failure_short_circuits w v err out :
  Parse (Args (env w)) EmptyString (Stdout (env w)) = (v, Some err, out) ->
  Read DefaultConsoleManager "part" w
  = ((EmptyString, Some (IOReadError err)), with_Stdout out w)
  /\ forall later,
      run_checks (getPartInFlag :: later) EmptyString w
      = ((EmptyString, Some (IOReadError err)), with_Stdout out w).
Proof.
  intros HP. pose proof (getPartInFlag_failed w v err out HP) as Hflag.
  split.
  - rewrite Read_part.
    exact (run_checks_first_error [] getPartInFlag [getPartInEnv; getPartInStdin]
             EmptyString w w _ _ _ (all_empty_nil w) Hflag).
  - intros later.
    exact (run_checks_first_error [] getPartInFlag later
             EmptyString w w _ _ _ (all_empty_nil w) Hflag).
Qed.
End Chain.

(** ** Resolution through the chain: missing, unparsable and invalid selectors *)

Section Validation.
Context {U : Type}.

Local Abbreviation World := (World U).
Implicit Types (w : World) (options : list (RunOption (U := U)))
  (mgr : option (IOManager (U := U))).

Lemma Run_read_error input (partOne partTwo : Challenge) options mgr w s err w1 :
  apply_options zero_options options = mkRunOptions mgr 0 ->
  Read (default NewConsoleManager mgr) "part" w = ((s, Some err), w1) ->
  Run input partOne partTwo options w = (Returned (Some err), w1).
Proof.
  intros Happ HR. unfold Run. unfold zero_options in Happ.
  rewrite (injectOptions_chain _ _ mgr w Happ). cbv zeta. rewrite HR. reflexivity.
Qed.

Lemma getPartInEnv_empty w :
  Getenv "GOAOC_CHALLENGE_PART" w = EmptyString ->
  getPartInEnv w = ((EmptyString, None), w).
Proof. intros H. unfold getPartInEnv. now rewrite H. Qed.

(** The prompt is written; a scan that delivers no word then ends in
    the missing part, through the EOF branch of [getPartInStdin] or
    through the end of the loop of [Read]. *)
Lemma stdin_no_word later w b :
  output w = Buffer b ->
  fst (fst (Fscanln (Stdin (env w)) EmptyString)) = EmptyString ->
  (forall w1, run_checks later EmptyString w1
              = ((EmptyString, Some (IOReadError ErrMissingPart)), w1)) ->
  exists w',
    run_checks (getPartInStdin :: later) EmptyString w
    = ((EmptyString, Some (IOReadError ErrMissingPart)), w')
    /\ output w'
       = Buffer (b +:+ "Which part do you want to run? (1/2)" +:+ newline).
Proof.
  intros Hb Hword Hlater. unfold output in Hb.
  cbn [run_checks]. unfold getPartInStdin. rewrite Hb.
  cbn [Fprintln Fprint Writer_Write set_Stdout Stdin].
  destruct (Fscanln (Stdin (env w)) EmptyString) as [[word err] r].
  cbn in Hword. subst word.
  destruct err as [err|].
  - destruct (errors_Is err EOF).
    + eexists. split; reflexivity.
    + rewrite bool_decide_eq_false_2 by (intros H; now apply H).
      rewrite Hlater. eexists. split; reflexivity.
  - rewrite bool_decide_eq_false_2 by (intros H; now apply H).
    rewrite Hlater. eexists. split; reflexivity.
Qed.

(** When the prompt cannot be written, the stdin source returns the
    error of the sink as it is. *)
Lemma getPartInStdin_prompt_fails w err :
  output w = FailingWriter err ->
  getPartInStdin w = ((EmptyString, Some err), w).
Proof.
  intros Hb. destruct w as [[i o a] vars c u].
  unfold output in Hb. cbn in Hb. subst o. reflexivity.
Qed.

(** C4 (amended). With no part override, a flag source that yields the
    empty string without a parse error and GOAOC_CHALLENGE_PART unset or
    empty, a run with the default console manager comes to the prompt.
    If the output sink takes the prompt and the interactive read
    delivers no word (end of input, an empty line, a failed read), Run
    returns IOReadError wrapping ErrMissingPart, so that
    errors.Is(err, ErrMissingPart) holds. If the sink rejects the prompt,
    Run returns the error of the sink instead. *)
Theorem missing_selector input (partOne partTwo : Challenge) w out :
  Parse (Args (env w)) EmptyString (Stdout (env w)) = (EmptyString, None, out) ->
  Getenv "GOAOC_CHALLENGE_PART" w = EmptyString ->
  match output w with
  | Buffer b =>
      fst (fst (Fscanln (Stdin (env w)) EmptyString)) = EmptyString ->
      exists w',
        Run input partOne partTwo [] w
        = (Returned (Some (IOReadError ErrMissingPart)), w')
        /\ output w'
           = Buffer (b +:+ "Which part do you want to run? (1/2)" +:+ newline)
        /\ errors_Is (IOReadError ErrMissingPart) ErrMissingPart = true
  | FailingWriter err =>
      Run input partOne partTwo [] w = (Returned (Some err), w)
  end.
Proof.
  intros HP Henv.
  assert (Hread : Read (default NewConsoleManager None) "part" w
                  = run_checks [getPartInStdin] EmptyString w).
  { cbn [default]. unfold NewConsoleManager. rewrite Read_part. unfold checks.
    cbn [run_checks].
    rewrite (getPartInFlag_ok w _ _ HP).
    rewrite bool_decide_eq_false_2 by (intros H; now apply H).
    rewrite (getPartInEnv_empty w Henv).
    rewrite bool_decide_eq_false_2 by (intros H; now apply H).
    reflexivity. }
  destruct (output w) as [b|err] eqn:Hb.
  - intros Hword.
    destruct (stdin_no_word [] w b Hb Hword (fun w1 => eq_refl)) as (w' & Hstdin & Hout).
    exists w'. split; [|split; [exact Hout | reflexivity]].
    apply (Run_read_error input partOne partTwo [] None w EmptyString); [reflexivity|].
    rewrite Hread. exact Hstdin.
  - apply (Run_read_error input partOne partTwo [] None w EmptyString); [reflexivity|].
    rewrite Hread. cbn [run_checks].
    rewrite (getPartInStdin_prompt_fails w err Hb). reflexivity.
Qed.

(** C5. Without a part override, whenever the manager's Read returns a
    string that strconv.Atoi rejects (no error from Read), whichever
    manager or source it comes from and whatever it contains, Run
    returns ErrInvalidPartType. *)
Theorem unparsable_selector input (partOne partTwo : Challenge) options mgr w s w1 :
  apply_options zero_options options = mkRunOptions mgr 0 ->
  Read (default NewConsoleManager mgr) "part" w = ((s, None), w1) ->
  Atoi s = None ->
  Run input partOne partTwo options w = (Returned (Some ErrInvalidPartType), w1).
Proof.
  intros Happ HR HA. unfold Run. unfold zero_options in Happ.
  rewrite (injectOptions_chain _ _ mgr w Happ). cbv zeta.
  rewrite HR, HA. reflexivity.
Qed.

(** C6. Without a part override, whenever the string the manager's Read
    returns parses to an integer other than 1 and 2, Run returns
    InvalidPartError carrying that integer. *)
Theorem invalid_selector_value input (partOne partTwo : Challenge) options mgr
    w s w1 (v : Z) :
  apply_options zero_options options = mkRunOptions mgr 0 ->
  Read (default NewConsoleManager mgr) "part" w = ((s, None), w1) ->
  Atoi s = Some v ->
  v <> 1 -> v <> 2 ->
  Run input partOne partTwo options w = (Returned (Some (InvalidPartError v)), w1).
Proof.
  intros Happ HR HA H1 H2. unfold Run. unfold zero_options in Happ.
  rewrite (injectOptions_chain _ _ mgr w Happ). cbv zeta.
  rewrite HR, HA. unfold NewPart.
  destruct (v =? 1) eqn:E1; [apply Z.eqb_eq in E1; contradiction|].
  destruct (v =? 2) eqn:E2; [apply Z.eqb_eq in E2; contradiction|].
  reflexivity.
Qed.

(** C9. When GOAOC_DISABLE_COPY_CLIPBOARD is exactly "true",
    toClipboard does nothing, and a successful Write adds the result
    line and nothing else to the output sink. For any other value, and
    when the variable is not set, toClipboard attempts the copy: the
    clipboard is what CopyText leaves, the status line of the copy is
    printed, and after a successful Write it follows the result line. *)
Theorem clipboard_disable_switch (result : string) w :
  (environ w !! "GOAOC_DISABLE_COPY_CLIPBOARD" = Some "true" ->
   toClipboard result w = w
   /\ forall b,
       output w = Buffer b ->
       Write DefaultConsoleManager result w
       = (None,
          with_Stdout
            (Buffer (b +:+ "The challenge result is " +:+ result +:+ newline)) w))
  /\ (environ w !! "GOAOC_DISABLE_COPY_CLIPBOARD" <> Some "true" ->
      clipboard (toClipboard result w) = snd (CopyText result (clipboard w))
      /\ output (toClipboard result w)
         = snd (Fprint (output w)
                  (clipboard_status result (fst (CopyText result (clipboard w)))))
      /\ forall b,
          output w = Buffer b ->
          Write DefaultConsoleManager result w
          = (None,
             mkWorld
               (set_Stdout
                  (Buffer ((b +:+ "The challenge result is " +:+ result +:+ newline)
                           +:+ clipboard_status result
                                 (fst (CopyText result (clipboard w)))))
                  (env w))
               (environ w) (snd (CopyText result (clipboard w))) (user w))).
Proof.
  split; intros Hd.
  - split; [now apply toClipboard_disabled|].
    intros b Hb. rewrite (Write_console result w b Hb). f_equal.
    now apply toClipboard_disabled.
  - split; [|split].
    + unfold toClipboard.
      rewrite bool_decide_eq_false_2 by (rewrite Getenv_true; exact Hd).
      destruct (CopyText result (clipboard w)) as [[e|] c]; reflexivity.
    + unfold toClipboard, output.
      rewrite bool_decide_eq_false_2 by (rewrite Getenv_true; exact Hd).
      destruct (CopyText result (clipboard w)) as [[e|] c]; reflexivity.
    + intros b Hb. rewrite (Write_console result w b Hb). f_equal.
      exact (toClipboard_enabled result
               (with_Stdout
                  (Buffer (b +:+ "The challenge result is " +:+ result +:+ newline)) w)
               _ Hd eq_refl).
Qed.
End Validation.

(** ** The interactive source and read failures *)

(** Whatever error the scan of stdin ends with, unless it is end of
    input, [getPartInStdin] drops it and returns what was scanned. *)
Lemma getPartInStdin_drops_error {U} (w : World U) b word err r :
  output w = Buffer b ->
  Fscanln (Stdin (env w)) EmptyString = (word, Some err, r) ->
  errors_Is err EOF = false ->
  fst (getPartInStdin w) = (word, None).
Proof.
  intros Hb HS HE. unfold output in Hb. unfold getPartInStdin.
  rewrite Hb. cbn [Fprintln Fprint Writer_Write set_Stdout Stdin].
  rewrite HS, HE. reflexivity.
Qed.

(** C8 (the code departs from it). Two reads of stdin that fail for a
    reason other than end of input: the line "1 2", on which Fscanln
    reports "expected newline", and a reader that fails with "read
    failed" before any byte. In the first, getPartInStdin returns "1" and
    no error, and the run goes on with part 1; in the second, Read
    returns IOReadError wrapping ErrMissingPart, in which the cause does
    not appear. *)
Theorem stdin_failure_is_swallowed :
  snd (fst (Fscanln (NewBufferString ("1 2" +:+ newline)) EmptyString))
  = Some (errorString "expected newline")
  /\ fst (getPartInStdin (console [] ("1 2" +:+ newline) (Buffer EmptyString) ∅))
     = ("1", None)
  /\ fst (Run "abc" partOne partTwo [] (console [] ("1 2" +:+ newline) (Buffer EmptyString) ∅))
     = Returned None
  /\ snd (fst (Fscanln (mkReader EmptyString (Some (errorString "read failed"))) EmptyString))
     = Some (errorString "read failed")
  /\ fst (Read DefaultConsoleManager "part"
            (console_failing_stdin EmptyString (errorString "read failed")))
     = (EmptyString, Some (IOReadError ErrMissingPart))
  /\ errors_Is (IOReadError ErrMissingPart) (errorString "read failed") = false.
Proof. vm_compute. repeat split. Qed.

(** ** Instances *)

Lemma end_to_end_abc_witness :
  exists w' status,
    Run "abc" partOne partTwo [WithPart 1]
      (console [] EmptyString (Buffer EmptyString) ∅) = (Returned None, w')
    /\ output w'
       = Buffer (EmptyString +:+ ("The challenge result is 3" +:+ newline) +:+ status)
    /\ (environ (console [] EmptyString (Buffer EmptyString) ∅)
          !! "GOAOC_DISABLE_COPY_CLIPBOARD" = Some "true" ->
        status = EmptyString).
Proof.
  exact (proj1 (end_to_end_abc (console [] EmptyString (Buffer EmptyString) ∅))).
Defined.

Lemma first_source_wins_witness :
  (getPartInFlag (console ["-part=1"] EmptyString (Buffer EmptyString)
                    {["GOAOC_CHALLENGE_PART" := "2"]})
   = (("1", None),
      console ["-part=1"] EmptyString (Buffer EmptyString)
        {["GOAOC_CHALLENGE_PART" := "2"]})
   /\ "1" <> EmptyString
   /\ environ (console ["-part=1"] EmptyString (Buffer EmptyString)
                 {["GOAOC_CHALLENGE_PART" := "2"]})
        !! "GOAOC_CHALLENGE_PART" = Some "2")
  /\ Read DefaultConsoleManager "part"
       (console ["-part=1"] EmptyString (Buffer EmptyString)
          {["GOAOC_CHALLENGE_PART" := "2"]})
     = (("1", None),
        console ["-part=1"] EmptyString (Buffer EmptyString)
          {["GOAOC_CHALLENGE_PART" := "2"]})
  /\ Read DefaultConsoleManager "part"
       (console [] ("1" +:+ newline) (Buffer EmptyString)
          {["GOAOC_CHALLENGE_PART" := "2"]})
     = (("2", None),
        console [] ("1" +:+ newline) (Buffer EmptyString)
          {["GOAOC_CHALLENGE_PART" := "2"]}).
Proof.
  split; [split; [vm_compute; reflexivity | split; [discriminate | vm_compute; reflexivity]]|].
  split.
  - apply (proj1 (proj2 first_source_wins) _ _ "1" "2");
      [vm_compute; reflexivity | discriminate | vm_compute; reflexivity].
  - apply (proj1 first_source_wins
             (console [] ("1" +:+ newline) (Buffer EmptyString)
                {["GOAOC_CHALLENGE_PART" := "2"]})
             (console [] ("1" +:+ newline) (Buffer EmptyString)
                {["GOAOC_CHALLENGE_PART" := "2"]})
             (console [] ("1" +:+ newline) (Buffer EmptyString)
                {["GOAOC_CHALLENGE_PART" := "2"]})
             [getPartInFlag] getPartInEnv [getPartInStdin] "2").
    + reflexivity.
    + eapply all_empty_cons; [vm_compute; reflexivity | apply all_empty_nil].
    + vm_compute; reflexivity.
    + discriminate.
Defined.

Lemma part_override_skips_read_witness :
  2 <> 0
  /\ Run "abc" partOne partTwo
       [WithPart 2; WithManager (withRead failing_read NewConsoleManager)]
       (console [] EmptyString (Buffer EmptyString) ∅)
     = Run "abc" partOne partTwo [WithPart 2]
         (console [] EmptyString (Buffer EmptyString) ∅).
Proof.
  split; [discriminate|].
  exact (proj2 (part_override_skips_read "abc" partOne partTwo [] [] 2
                  (console [] EmptyString (Buffer EmptyString) ∅)
                  ltac:(discriminate)) failing_read).
Defined.

Lemma missing_selector_witness :
  (Parse [] EmptyString (Buffer EmptyString) = (EmptyString, None, Buffer EmptyString)
   /\ Getenv "GOAOC_CHALLENGE_PART" (console [] EmptyString (Buffer EmptyString) ∅)
      = EmptyString
   /\ fst (fst (Fscanln (NewBufferString EmptyString) EmptyString)) = EmptyString)
  /\ fst (Run "input" partOne partTwo [] (console [] EmptyString (Buffer EmptyString) ∅))
     = Returned (Some (IOReadError ErrMissingPart)).
Proof.
  assert (Hvar : Getenv "GOAOC_CHALLENGE_PART"
                   (console [] EmptyString (Buffer EmptyString) ∅) = EmptyString)
    by (vm_compute; reflexivity).
  split; [split; [reflexivity | split; [exact Hvar | reflexivity]]|].
  destruct (missing_selector "input" partOne partTwo
              (console [] EmptyString (Buffer EmptyString) ∅)
              (Buffer EmptyString) eq_refl Hvar eq_refl)
    as (w' & HR & _).
  rewrite HR. reflexivity.
Defined.

(** The claim C4 as it is stated fails when the prompt cannot be written:
    nothing overrides the part, no flag is given, the variable is not
    set and stdin is empty, yet Run returns the error of the sink. *)
Lemma missing_selector_counterexample :
  ~ (forall w : World unit,
        fst (getPartInFlag w) = (EmptyString, None) ->
        environ w !! "GOAOC_CHALLENGE_PART" = None ->
        Stdin (env w) = NewBufferString EmptyString ->
        exists err,
          fst (Run "input" partOne partTwo [] w) = Returned (Some err)
          /\ errors_Is err ErrMissingPart = true).
Proof.
  intros H.
  assert (Hvar : environ (console [] EmptyString
                            (FailingWriter (errorString "write failed")) ∅)
                   !! "GOAOC_CHALLENGE_PART" = None)
    by (vm_compute; reflexivity).
  destruct (H (console [] EmptyString (FailingWriter (errorString "write failed")) ∅)
              eq_refl Hvar eq_refl) as (err & HR & HI).
  vm_compute in HR. injection HR as <-. vm_compute in HI. discriminate HI.
Qed.

Lemma unparsable_selector_witness :
  (apply_options (U := unit) zero_options [] = mkRunOptions None 0
   /\ Read (default NewConsoleManager None) "part"
        (console [] EmptyString (Buffer EmptyString) {["GOAOC_CHALLENGE_PART" := "ss"]})
      = (("ss", None),
         console [] EmptyString (Buffer EmptyString) {["GOAOC_CHALLENGE_PART" := "ss"]})
   /\ Atoi "ss" = None)
  /\ Run "input" partOne partTwo []
       (console [] EmptyString (Buffer EmptyString) {["GOAOC_CHALLENGE_PART" := "ss"]})
     = (Returned (Some ErrInvalidPartType),
        console [] EmptyString (Buffer EmptyString) {["GOAOC_CHALLENGE_PART" := "ss"]}).
Proof.
  split; [split; [reflexivity | split; vm_compute; reflexivity]|].
  apply (unparsable_selector "input" partOne partTwo [] None _ "ss");
    [reflexivity | vm_compute; reflexivity | reflexivity].
Defined.

Lemma invalid_selector_value_witness :
  (apply_options (U := unit) zero_options [] = mkRunOptions None 0
   /\ Read (default NewConsoleManager None) "part"
        (console ["-part"; "3"] EmptyString (Buffer EmptyString) ∅)
      = (("3", None), console ["-part"; "3"] EmptyString (Buffer EmptyString) ∅)
   /\ Atoi "3" = Some 3
   /\ 3 <> 1 /\ 3 <> 2)
  /\ Run "input" partOne partTwo []
       (console ["-part"; "3"] EmptyString (Buffer EmptyString) ∅)
     = (Returned (Some (InvalidPartError 3)),
        console ["-part"; "3"] EmptyString (Buffer EmptyString) ∅).
Proof.
  split.
  - split; [reflexivity|]. split; [vm_compute; reflexivity|].
    split; [reflexivity|]. split; discriminate.
  - apply (invalid_selector_value "input" partOne partTwo [] None _ "3");
      [reflexivity | vm_compute; reflexivity | reflexivity | discriminate | discriminate].
Defined.

Lemma flag_failure_short_circuits_witness :
  Parse ["--test"] EmptyString (FailingWriter (errorString "write failed"))
  = (EmptyString, Some (errorString "flag provided but not defined: -test"),
     FailingWriter (errorString "write failed"))
  /\ Read DefaultConsoleManager "part"
       (console ["--test"] "0" (FailingWriter (errorString "write failed"))
          {["GOAOC_CHALLENGE_PART" := "2"]})
     = ((EmptyString,
         Some (IOReadError (errorString "flag provided but not defined: -test"))),
        console ["--test"] "0" (FailingWriter (errorString "write failed"))
          {["GOAOC_CHALLENGE_PART" := "2"]}).
Proof.
  split; [vm_compute; reflexivity|].
  exact (proj1 (flag_failure_short_circuits
                  (console ["--test"] "0" (FailingWriter (errorString "write failed"))
                     {["GOAOC_CHALLENGE_PART" := "2"]})
                  EmptyString (errorString "flag provided but not defined: -test")
                  (FailingWriter (errorString "write failed")) eq_refl)).
Defined.

Lemma clipboard_disable_switch_witness :
  (environ (console [] EmptyString (Buffer EmptyString)
              {["GOAOC_DISABLE_COPY_CLIPBOARD" := "true"]})
     !! "GOAOC_DISABLE_COPY_CLIPBOARD" = Some "true"
   /\ output (console [] EmptyString (Buffer EmptyString)
                {["GOAOC_DISABLE_COPY_CLIPBOARD" := "true"]}) = Buffer EmptyString)
  /\ Write DefaultConsoleManager "42"
       (console [] EmptyString (Buffer EmptyString)
          {["GOAOC_DISABLE_COPY_CLIPBOARD" := "true"]})
     = (None,
        console [] EmptyString (Buffer ("The challenge result is 42" +:+ newline))
          {["GOAOC_DISABLE_COPY_CLIPBOARD" := "true"]}).
Proof.
  assert (Hd : environ (console [] EmptyString (Buffer EmptyString)
                          {["GOAOC_DISABLE_COPY_CLIPBOARD" := "true"]})
                 !! "GOAOC_DISABLE_COPY_CLIPBOARD" = Some "true")
    by (vm_compute; reflexivity).
  split; [split; [exact Hd | reflexivity]|].
  rewrite (proj2 (proj1 (clipboard_disable_switch "42"
                           (console [] EmptyString (Buffer EmptyString)
                              {["GOAOC_DISABLE_COPY_CLIPBOARD" := "true"]})) Hd)
             EmptyString eq_refl).
  reflexivity.
Defined.

Lemma invalid_override_panics_witness :
  (3 <> 0 /\ 3 <> 1 /\ 3 <> 2)
  /\ Run "abc" partOne partTwo [WithPart 3]
       (console [] EmptyString (Buffer EmptyString) ∅)
     = (Panicked ErrMissingPart, console [] EmptyString (Buffer EmptyString) ∅).
Proof.
  split; [repeat split; discriminate|].
  apply (invalid_override_panics "abc" partOne partTwo [] [] 3); discriminate.
Defined.

(** ** The tests of the repository, replayed on the embedding *)

Example TestRead_PartFromFlag :
  fst (Read DefaultConsoleManager "part"
         (console ["-part=1"] EmptyString (Buffer EmptyString) ∅))
  = ("1", None).
Proof. vm_compute. reflexivity. Qed.

Example TestRead_PartFromEnv :
  fst (Read DefaultConsoleManager "part"
         (console [] EmptyString (Buffer EmptyString) {["GOAOC_CHALLENGE_PART" := "2"]}))
  = ("2", None).
Proof. vm_compute. reflexivity. Qed.

Example TestRead_PartFromStdin :
  fst (Read DefaultConsoleManager "part"
         (console [] ("1" +:+ newline) (Buffer EmptyString) ∅))
  = ("1", None).
Proof. vm_compute. reflexivity. Qed.

Example TestRead_PartFromStdinFailStdout :
  message (snd (fst (Read DefaultConsoleManager "part"
                       (console [] ("1" +:+ newline)
                          (FailingWriter (errorString "write failed")) ∅))))
  = Some "write failed".
Proof. vm_compute. reflexivity. Qed.

Example TestRead_PartFromStdinFailEmpty :
  message (snd (fst (Read DefaultConsoleManager "part"
                       (console [] EmptyString (Buffer EmptyString) ∅))))
  = Some "failed to read input: no part specified, please provide a valid part".
Proof. vm_compute. reflexivity. Qed.

Example TestRead_FlagProvidedButNotDefined :
  message (snd (fst (Read DefaultConsoleManager "part"
                       (console ["--test"] "0" (Buffer EmptyString) ∅))))
  = Some "failed to read input: flag provided but not defined: -test"
  /\ message (snd (fst (Read DefaultConsoleManager "part"
                          (console ["--test"] "0"
                             (FailingWriter (errorString "write failed")) ∅))))
     = Some "failed to read input: flag provided but not defined: -test".
Proof. vm_compute. split; reflexivity. Qed.

Example TestRead_EmptyRead :
  fst (Read DefaultConsoleManager EmptyString
         (console [] EmptyString (Buffer EmptyString) ∅))
  = (EmptyString, None).
Proof. vm_compute. reflexivity. Qed.

Example TestOutput :
  let r := Write DefaultConsoleManager "42"
             (console [] EmptyString (Buffer EmptyString)
                {["GOAOC_DISABLE_COPY_CLIPBOARD" := "false"]}) in
  fst r = None
  /\ output (snd r)
     = Buffer ("The challenge result is 42" +:+ newline
               +:+ "Copied to clipboard: 42" +:+ newline).
Proof. vm_compute. split; reflexivity. Qed.

Example TestOutputWriterFails :
  message (fst (Write DefaultConsoleManager "42"
                  (console [] EmptyString (FailingWriter (errorString "write failed")) ∅)))
  = Some "failed to write input: write failed".
Proof. vm_compute. reflexivity. Qed.

Example TestRunWithInvalidParts :
  map (fun p => returned_message (run_mock (mock.NewManager p None None)))
      ["0"; "3"; "ss"; EmptyString; "true"]
  = [Some "invalid part: 0. The valid parts are (1/2)";
     Some "invalid part: 3. The valid parts are (1/2)";
     Some "invalid part type. The part type allowed is int";
     Some "invalid part type. The part type allowed is int";
     Some "invalid part type. The part type allowed is int"].
Proof. vm_compute. reflexivity. Qed.

Example TestRunWithErrors :
  returned_message
    (run_mock (mock.NewManager "2" (Some (errorString "error when calling Read")) None))
  = Some "error when calling Read"
  /\ returned_message
       (run_mock (mock.NewManager "1" None (Some (errorString "output failed"))))
     = Some "output failed".
Proof. vm_compute. split; reflexivity. Qed.

Example TestRunWithValidPart :
  (let r := run_mock (mock.NewManager "1" None None) in
   fst r = Returned None
   /\ mock.GetStdout (snd r) = "The challenge result is 42" +:+ newline)
  /\ (let r := run_mock (mock.NewManager "2" None None) in
      fst r = Returned None
      /\ mock.GetStdout (snd r) = "The challenge result is 24" +:+ newline).
Proof. vm_compute. repeat split. Qed.

Example TestRunWithDefaultManager :
  fst (Run "input" mockPartOne mockPartTwo [WithPart 1]
         (console [] EmptyString (Buffer EmptyString) ∅)) = Returned None
  /\ fst (Run "input" mockPartOne mockPartTwo [WithPart 2]
            (console [] EmptyString (Buffer EmptyString) ∅)) = Returned None.
Proof. vm_compute. split; reflexivity. Qed.

(** ** Further properties: the interactive source *)








Section Interactive.
Context {U : Type}.

Local Abbreviation World := (World U).
Implicit Types (w : World).


End Interactive.

(** ** Further properties: the flag source *)

Lemma Usage_buffer (b : string) : Usage (Buffer b) = Buffer (b +:+ usage_text).
Proof.
  unfold Usage, usage_text. cbn [Fprint Writer_Write snd].
  now rewrite append_assoc.
Qed.

Lemma failf_buffer (msg b : string) :
  failf msg (Buffer b)
  = (errorString msg,
     Buffer (b +:+ failure_text (errorString msg) +:+ usage_text)).
Proof.
  unfold failf. cbn [Fprintln Fprint Writer_Write snd]. rewrite Usage_buffer.
  unfold failure_text. rewrite decide_False by discriminate.
  now rewrite !append_assoc.
Qed.

(** What a failed parse leaves on a buffer: the message of the error,
    unless help was asked for, and the usage. *)
Lemma Parse_failure_output (n : nat) :
  forall args part (b : string) v err out,
    (length args <= n)%nat ->
    Parse args part (Buffer b) = (v, Some err, out) ->
    out = Buffer (b +:+ failure_text err +:+ usage_text).
Proof.
  induction n as [|n IH]; intros args part b v err out Hlen HP.
  - destruct args; [|simpl in Hlen; lia]. cbn in HP. congruence.
  - destruct args as [|s rest]; [cbn in HP; congruence|].
    cbn [Parse] in HP. rewrite ?failf_buffer in HP. simpl in Hlen.
    repeat case_match; simplify_eq;
      try (rewrite ?failf_buffer in *; simplify_eq; reflexivity);
      try (rewrite Usage_buffer; reflexivity);
      try (eapply IH; [|eassumption]; simpl in *; lia).
Qed.

(** The value and the error of a parse do not depend on the writer. *)
Lemma Parse_any_writer (n : nat) :
  forall args part out1 out2,
    (length args <= n)%nat ->
    fst (Parse args part out1) = fst (Parse args part out2).
Proof.
  induction n as [|n IH]; intros args part out1 out2 Hlen.
  - destruct args; [reflexivity | simpl in Hlen; lia].
  - destruct args as [|s rest]; [reflexivity|].
    cbn [Parse]. unfold failf. simpl in Hlen.
    repeat case_match; simplify_eq; try reflexivity;
      (apply IH; simpl in *; lia).
Qed.

(** A writer that rejects every write is left as it is. *)
Lemma Parse_failing_writer (n : nat) :
  forall args part e v err out,
    (length args <= n)%nat ->
    Parse args part (FailingWriter e) = (v, err, out) ->
    out = FailingWriter e.
Proof.
  induction n as [|n IH]; intros args part e v err out Hlen HP.
  - destruct args; [|simpl in Hlen; lia]. cbn in HP. congruence.
  - destruct args as [|s rest]; [cbn in HP; congruence|].
    cbn [Parse] in HP. unfold failf, Usage in HP. cbn in HP. simpl in Hlen.
    repeat case_match; simplify_eq; try reflexivity;
      (eapply IH; [|eassumption]; simpl in *; lia).
Qed.

Section FlagSource.
Context {U : Type}.

Local Abbreviation World := (World U).
Implicit Types (w : World).

(** X3. The flag source is silent when it succeeds: whenever
    getPartInFlag returns no error, it leaves the world as it was
    (nothing is printed, stdin is not read). *)
Theorem getPartInFlag_success_is_silent w v w1 :
  getPartInFlag w = ((v, None), w1) -> w1 = w.
Proof.
  unfold getPartInFlag.
  destruct (Parse (Args (env w)) EmptyString (Stdout (env w)))
    as [[p [err|]] out] eqn:HP; [discriminate|].
  intros [= _ <-].
  rewrite (Parse_silent _ _ _ _ _ _ (le_n _) HP). apply with_Stdout_same.
Qed.

(** X4. When getPartInFlag fails on a working sink, the part is empty,
    the error is IOReadError around the error of the parse, and the sink
    has received the message of that error on a line (nothing for a
    request of help) followed by the usage text; all else is untouched. *)
Theorem getPartInFlag_failure_report w (b : string) s e w1 :
  output w = Buffer b ->
  getPartInFlag w = ((s, Some e), w1) ->
  exists err,
    e = IOReadError err
    /\ s = EmptyString
    /\ w1 = with_Stdout (Buffer (b +:+ failure_text err +:+ usage_text)) w.
Proof.
  intros Hb. unfold output in Hb. unfold getPartInFlag. rewrite Hb.
  destruct (Parse (Args (env w)) EmptyString (Buffer b))
    as [[p [err|]] out] eqn:HP; [|discriminate].
  intros [= <- <- <-]. exists err. split; [reflexivity|]. split; [reflexivity|].
  now rewrite (Parse_failure_output _ _ _ _ _ _ _ (le_n _) HP).
Qed.

(** X5. What getPartInFlag returns, the part and the error, does not
    depend on the output sink: a sink that rejects the usage text
    changes neither. *)
Theorem getPartInFlag_any_sink w (out : Writer) :
  fst (getPartInFlag (with_Stdout out w)) = fst (getPartInFlag w).
Proof.
  unfold getPartInFlag, with_Stdout.
  cbn [env set_env set_Stdout Args Stdout].
  pose proof (Parse_any_writer _ (Args (env w)) EmptyString out (Stdout (env w))
                (le_n _)) as H.
  destruct (Parse (Args (env w)) EmptyString out) as [[p1 e1] o1].
  destruct (Parse (Args (env w)) EmptyString (Stdout (env w))) as [[p2 e2] o2].
  cbn in H. injection H as -> ->. destruct e2; reflexivity.
Qed.

(** X6. The forms of the flag: [-part=v], [--part=v], [-part v] and
    [--part v] all set the part to [v] and parsing goes on with the
    arguments after them, so that the last occurrence decides; [--] and
    the first argument that is no flag end the parse, and what follows
    them is ignored. A command line with one such flag makes
    getPartInFlag return [v]. *)
Theorem flag_forms (v : string) (rest : list string) (part0 : string) (out : Writer) :
  Parse (("-part=" +:+ v) :: rest) part0 out = Parse rest v out
  /\ Parse (("--part=" +:+ v) :: rest) part0 out = Parse rest v out
  /\ Parse ("-part" :: v :: rest) part0 out = Parse rest v out
  /\ Parse ("--part" :: v :: rest) part0 out = Parse rest v out
  /\ Parse ("--" :: rest) part0 out = (part0, None, out)
  /\ (forall c s, c <> "-"%char ->
                  Parse (String c s :: rest) part0 out = (part0, None, out))
  /\ (forall w : World,
         In (Args (env w))
            [["-part=" +:+ v]; ["--part=" +:+ v]; ["-part"; v]; ["--part"; v]] ->
         getPartInFlag w = ((v, None), w)).
Proof.
  repeat split; try reflexivity.
  - intros c s Hc. cbn [Parse]. destruct s as [|c1 s2]; [reflexivity|].
    now rewrite bool_decide_eq_false_2.
  - intros w Hin. apply (getPartInFlag_ok w v (Stdout (env w))).
    cbn [In] in Hin.
    destruct Hin as [<- | [<- | [<- | [<- | []]]]]; reflexivity.
Qed.
End FlagSource.

(** ** Further properties: the runner *)

Section Runner.
Context {U : Type}.

Local Abbreviation World := (World U).
Implicit Types (w : World) (options : list (RunOption (U := U)))
  (mgr : option (IOManager (U := U))) (m : IOManager (U := U)).

(** [Run] without a part override, step by step. *)
Lemma Run_chain input (partOne partTwo : Challenge) options mgr w :
  apply_options zero_options options = mkRunOptions mgr 0 ->
  Run input partOne partTwo options w
  = let m := default NewConsoleManager mgr in
    let '((s, err), w1) := Read m "part" w in
    match err with
    | Some err => (Returned (Some err), w1)
    | None =>
        match Atoi s with
        | None => (Returned (Some ErrInvalidPartType), w1)
        | Some v =>
            if negb (v =? 1) && negb (v =? 2)
            then (Returned (Some (InvalidPartError v)), w1)
            else dispatch_and_report m input partOne partTwo v w1
        end
    end.
Proof.
  intros Happ. unfold Run. unfold zero_options in Happ.
  rewrite (injectOptions_chain _ _ mgr w Happ). cbv zeta.
  destruct (Read _ "part" w) as [[s [e|]] w1]; [reflexivity|].
  destruct (Atoi s) as [v|]; [|reflexivity].
  unfold NewPart, dispatch_and_report.
  destruct (negb (v =? 1) && negb (v =? 2)); cbn [fst snd part the_manager manager default];
    [reflexivity|].
  destruct (executeChallenge input partOne partTwo v); [|reflexivity].
  destruct (Write _ _ w1) as [[e|] w2]; reflexivity.
Qed.



(** X11. Without a part override, when the manager's Read returns a
    string that parses to 1 or 2, Run calls the challenge function of
    that number on the input and hands the decimal rendering of its
    result to the manager's Write, in the world Read left; what Write
    returns is what Run returns. *)
Theorem Run_chain_success input (partOne partTwo : Challenge) options mgr
    w (s : string) w1 (v : Z) :
  apply_options zero_options options = mkRunOptions mgr 0 ->
  Read (default NewConsoleManager mgr) "part" w = ((s, None), w1) ->
  Atoi s = Some v ->
  v = 1 \/ v = 2 ->
  Run input partOne partTwo options w
  = (let '(err, w2) :=
       Write (default NewConsoleManager mgr)
             (Itoa (if v =? 1 then partOne input else partTwo input)) w1 in
     (Returned err, w2)).
Proof.
  intros Happ HR HA Hv.
  rewrite (Run_chain input partOne partTwo options mgr w Happ). cbv zeta.
  rewrite HR, HA.
  destruct Hv as [-> | ->]; reflexivity.
Qed.


(** X13. Run depends on its options only through the manager and the
    part they leave: any list of options runs like the short list with
    that manager and that part. In particular a final WithPart(0) undoes
    an earlier override and hands the choice back to the source chain,
    whereas a "0" read from a source is rejected with InvalidPartError. *)
Theorem Run_options_normal_form input (partOne partTwo : Challenge) options mgr
    (p : Z) w :
  apply_options zero_options options = mkRunOptions mgr p ->
  let managers := match mgr with Some m => [WithManager m] | None => [] end in
  Run input partOne partTwo options w
  = Run input partOne partTwo (managers ++ [WithPart p]) w
  /\ Run input partOne partTwo (options ++ [WithPart 0]) w
     = Run input partOne partTwo managers w
  /\ (forall w1,
        Read (default NewConsoleManager mgr) "part" w = (("0", None), w1) ->
        Run input partOne partTwo managers w
        = (Returned (Some (InvalidPartError 0)), w1)).
Proof.
  intros Happ managers.
  assert (Hdep : forall o1 o2,
             apply_options zero_options o1 = apply_options zero_options o2 ->
             Run input partOne partTwo o1 w = Run input partOne partTwo o2 w).
  { intros o1 o2 H. unfold Run, injectOptions.
    unfold zero_options in H. now rewrite H. }
  assert (Hm : apply_options zero_options managers = mkRunOptions mgr 0)
    by (subst managers; destruct mgr; reflexivity).
  split; [|split].
  - apply Hdep. rewrite Happ, apply_options_app, Hm. reflexivity.
  - apply Hdep. rewrite apply_options_app, Happ, Hm. reflexivity.
  - intros w1 HR.
    rewrite (Run_chain input partOne partTwo managers mgr w Hm). cbv zeta.
    now rewrite HR.
Qed.
End Runner.

(** ** Further properties: what the console manager leaves alone *)

Section Frame.
Context {U : Type}.

Local Abbreviation World := (World U).
Implicit Types (w : World).

Lemma same_setting_refl w : same_setting w w.
Proof. repeat split. Qed.

Lemma same_setting_trans w1 w2 w3 :
  same_setting w1 w2 -> same_setting w2 w3 -> same_setting w1 w3.
Proof. intros (?&?&?) (?&?&?). repeat split; congruence. Qed.

Lemma output_extends_refl w : output_extends w w.
Proof.
  unfold output_extends. destruct (output w) as [b|err] eqn:E; [|reflexivity].
  exists EmptyString. now rewrite append_empty_r.
Qed.

Lemma output_extends_trans w1 w2 w3 :
  output_extends w1 w2 -> output_extends w2 w3 -> output_extends w1 w3.
Proof.
  unfold output_extends. destruct (output w1) as [b|err].
  - intros [s1 H1]. rewrite H1. intros [s2 H2].
    exists (s1 +:+ s2). now rewrite <- append_assoc.
  - intros H1. now rewrite H1.
Qed.

(** Whatever a projection of the world is, a chain of sources that all
    keep it keeps it. *)
Lemma run_checks_keeps (R : World -> World -> Prop)
    (cs : list (check (U := U))) :
  (forall w, R w w) ->
  (forall w1 w2 w3, R w1 w2 -> R w2 w3 -> R w1 w3) ->
  Forall (fun c => forall w, R w (snd (c w))) cs ->
  forall part0 w, R w (snd (run_checks cs part0 w)).
Proof.
  intros Hrefl Htrans Hcs. induction Hcs as [|c cs Hc _ IH]; intros part0 w.
  - apply Hrefl.
  - cbn [run_checks]. specialize (Hc w).
    destruct (c w) as [[s [e|]] w1]; cbn [snd] in *; [exact Hc|].
    destruct (bool_decide (s <> EmptyString)); cbn [snd]; [exact Hc|].
    eapply Htrans; [exact Hc | apply IH].
Qed.

Lemma getPartInFlag_frame w :
  let w' := snd (getPartInFlag w) in
  same_setting w w' /\ clipboard w' = clipboard w
  /\ Stdin (env w') = Stdin (env w) /\ output_extends w w'.
Proof.
  unfold getPartInFlag.
  destruct (Parse (Args (env w)) EmptyString (Stdout (env w)))
    as [[p [err|]] out] eqn:HP; cbn [snd]; repeat split.
  - unfold output_extends, output. cbn [env set_env set_Stdout Stdout].
    destruct (Stdout (env w)) as [b|e] eqn:Hb.
    + rewrite (Parse_failure_output _ _ _ _ _ _ _ (le_n _) HP). now eexists.
    + exact (Parse_failing_writer _ _ _ _ _ _ _ (le_n _) HP).
  - rewrite (Parse_silent _ _ _ _ _ _ (le_n _) HP).
    change (output_extends w (with_Stdout (Stdout (env w)) w)).
    rewrite with_Stdout_same. apply output_extends_refl.
Qed.
Lemma getPartInStdin_frame w :
  let w' := snd (getPartInStdin w) in
  same_setting w w' /\ clipboard w' = clipboard w /\ output_extends w w'.
Proof.
  unfold getPartInStdin, output_extends, output.
  destruct (Stdout (env w)) as [b|e] eqn:Hb;
    cbn [Fprintln Fprint Writer_Write set_Stdout Stdin].
  - destruct (Fscanln (Stdin (env w)) EmptyString) as [[word [err|]] r];
      [destruct (errors_Is err EOF)|]; cbn; repeat split; now eexists.
  - cbn. repeat split; try exact Hb.
Qed.

(** The relation every source keeps. *)
Lemma sources_frame :
  Forall (fun c : check (U := U) =>
            forall w, (fun w w' => same_setting w w' /\ clipboard w' = clipboard w
                                   /\ output_extends w w') w (snd (c w)))
         checks.
Proof.
  unfold checks. constructor; [|constructor; [|constructor; [|constructor]]].
  - intros w. destruct (getPartInFlag_frame w) as (Hs & Hc & _ & Ho). auto.
  - intros w. split; [apply same_setting_refl|].
    split; [reflexivity | apply output_extends_refl].
  - intros w. apply getPartInStdin_frame.
Qed.

Lemma chain_frame w :
  let w' := snd (run_checks checks EmptyString w) in
  same_setting w w' /\ clipboard w' = clipboard w /\ output_extends w w'.
Proof.
  apply (run_checks_keeps
           (fun w w' => same_setting w w' /\ clipboard w' = clipboard w
                        /\ output_extends w w')).
  - intros w0. split; [apply same_setting_refl|].
    split; [reflexivity | apply output_extends_refl].
  - intros w1 w2 w3 (Hs1 & Hc1 & Ho1) (Hs2 & Hc2 & Ho2).
    split; [eapply same_setting_trans; eassumption|].
    split; [congruence | eapply output_extends_trans; eassumption].
  - apply sources_frame.
Qed.

(** X7. Read of the default console manager, whatever its argument and
    however it ends, changes nothing but the two streams: the
    environment variables, the arguments, the clipboard and the objects
    of the caller are as before, and the output sink has only been
    appended to (the usage text or the prompt). *)
Theorem Read_frame (arg : string) w :
  let w' := snd (Read DefaultConsoleManager arg w) in
  same_setting w w' /\ clipboard w' = clipboard w /\ output_extends w w'.
Proof.
  cbn [Read DefaultConsoleManager]. unfold DefaultConsoleManager_Read.
  destruct (bool_decide (arg <> "part")); cbn zeta.
  - cbn [snd]. split; [apply same_setting_refl|].
    split; [reflexivity | apply output_extends_refl].
  - apply chain_frame.
Qed.

Lemma toClipboard_frame value w :
  let w' := toClipboard value w in
  same_setting w w' /\ Stdin (env w') = Stdin (env w) /\ output_extends w w'.
Proof.
  unfold toClipboard.
  destruct (bool_decide (Getenv "GOAOC_DISABLE_COPY_CLIPBOARD" w = "true")).
  - split; [apply same_setting_refl|]. split; [reflexivity | apply output_extends_refl].
  - unfold output_extends, output.
    destruct (CopyText value (clipboard w)) as [[e|] c];
      cbn [set_clipboard env environ clipboard user set_env set_Stdout Stdin Stdout Args];
      (split; [repeat split|]; split; [reflexivity|]);
      destruct (Stdout (env w)) as [b|e']; cbn; try reflexivity; now eexists.
Qed.

Lemma report_frame input (partOne partTwo : Challenge) (q : Z) w :
  let w' := snd (dispatch_and_report DefaultConsoleManager input partOne partTwo q w) in
  same_setting w w' /\ output_extends w w'.
Proof.
  unfold dispatch_and_report.
  destruct (executeChallenge input partOne partTwo q) as [r|v]; cbn [snd];
    [|split; [apply same_setting_refl | apply output_extends_refl]].
  destruct (output w) as [b|err] eqn:Hb.
  - rewrite (Write_console (Itoa r) w b Hb). cbn [snd].
    set (w1 := with_Stdout _ w).
    destruct (toClipboard_frame (Itoa r) w1) as (Hs & _ & Ho).
    split.
    + eapply same_setting_trans; [|exact Hs]. repeat split.
    + eapply output_extends_trans; [|exact Ho].
      unfold output_extends. rewrite Hb. now eexists.
  - rewrite (Write_console_failing (Itoa r) w err Hb). cbn [snd].
    split; [apply same_setting_refl | apply output_extends_refl].
Qed.

(** X8. Write of the default console manager changes nothing but the
    output sink and the clipboard: the environment variables, the
    arguments, the objects of the caller and stdin are as before, and
    the sink has only been appended to. *)
Theorem Write_frame (result : string) w :
  let w' := snd (Write DefaultConsoleManager result w) in
  same_setting w w' /\ Stdin (env w') = Stdin (env w) /\ output_extends w w'.
Proof.
  destruct (output w) as [b|err] eqn:Hb.
  - rewrite (Write_console result w b Hb). cbn [snd].
    set (w1 := with_Stdout _ w).
    destruct (toClipboard_frame result w1) as (Hs & Hi & Ho).
    split; [|split].
    + eapply same_setting_trans; [|exact Hs]. repeat split.
    + rewrite Hi. reflexivity.
    + eapply output_extends_trans; [|exact Ho].
      unfold output_extends. rewrite Hb. now eexists.
  - rewrite (Write_console_failing result w err Hb). cbn [snd].
    split; [apply same_setting_refl|]. split; [reflexivity | apply output_extends_refl].
Qed.

(** X9. A run with the default console manager (no WithManager among
    the options), whatever the part and however it ends, leaves the
    environment variables, the arguments and the objects of the caller
    as they were, and only appends to the output sink. *)
Theorem Run_frame input (partOne partTwo : Challenge)
    (options : list (RunOption (U := U))) p w :
  apply_options zero_options options = mkRunOptions None p ->
  let w' := snd (Run input partOne partTwo options w) in
  same_setting w w' /\ output_extends w w'.
Proof.
  intros Happ. cbv zeta.
  destruct (decide (p = 0)) as [->|Hp].
  - rewrite (Run_chain input partOne partTwo options None w Happ). cbv zeta.
    cbn [default]. unfold NewConsoleManager. rewrite Read_part.
    destruct (chain_frame w) as (Hs & _ & Ho).
    destruct (run_checks checks EmptyString w) as [[s [e|]] w1]; cbn [snd] in *;
      [now split|].
    destruct (Atoi s) as [v|]; [|now split].
    destruct (negb (v =? 1) && negb (v =? 2)); [now split|].
    destruct (report_frame input partOne partTwo v w1) as [Hs' Ho'].
    split; [eapply same_setting_trans | eapply output_extends_trans]; eassumption.
  - rewrite (Run_override input partOne partTwo options None p w Happ Hp).
    cbn [default]. apply report_frame.
Qed.
End Frame.

(** ** Further properties: what Read and Write return *)

Section Results.
Context {U : Type}.

Local Abbreviation World := (World U).
Implicit Types (w : World).

(** The loop over the sources ends with a part and no error, or with an
    error and no part. *)
Lemma run_checks_shape (cs : list (check (U := U))) : forall w,
  exists s err w',
    run_checks cs EmptyString w = ((s, err), w')
    /\ ((err = None /\ s <> EmptyString) \/ (s = EmptyString /\ err <> None)).
Proof.
  induction cs as [|c cs IH]; intros w; cbn [run_checks].
  - eexists _, _, _. split; [reflexivity|]. right. split; [reflexivity | discriminate].
  - destruct (c w) as [[s [e|]] w1].
    + eexists _, _, _. split; [reflexivity|]. right. split; [reflexivity | discriminate].
    + destruct (decide (s = EmptyString)) as [->|Hs].
      * rewrite bool_decide_eq_false_2 by (intros H; now apply H). apply IH.
      * rewrite bool_decide_eq_true_2 by exact Hs.
        eexists _, _, _. split; [reflexivity|]. left. now split.
Qed.

(** X14. Read of the default console manager never returns an empty
    part without an error, nor a part together with an error: asked for
    "part", it ends with a non-empty string and nil, or with the empty
    string and an error; asked for anything else, it returns the empty
    string and nil and touches nothing. *)
Theorem Read_result_shape (arg : string) w :
  (arg = "part" ->
   exists s err w',
     Read DefaultConsoleManager arg w = ((s, err), w')
     /\ ((err = None /\ s <> EmptyString) \/ (s = EmptyString /\ err <> None)))
  /\ (arg <> "part" ->
      Read DefaultConsoleManager arg w = ((EmptyString, None), w)).
Proof.
  split.
  - intros ->. rewrite Read_part. apply run_checks_shape.
  - intros Harg. cbn [Read DefaultConsoleManager]. unfold DefaultConsoleManager_Read.
    now rewrite bool_decide_eq_true_2.
Qed.

(** X15. Every error of Read of the default console manager is an
    IOReadError (around the error of the flag parse or around
    ErrMissingPart), with one exception: when the sink rejects the
    prompt, Read returns the error of the sink as it is, unwrapped. *)
Theorem Read_error_kinds w (s : string) (e : error) w' :
  Read DefaultConsoleManager "part" w = ((s, Some e), w') ->
  (exists cause, e = IOReadError cause) \/ output w = FailingWriter e.
Proof.
  rewrite Read_part. unfold checks. cbn [run_checks].
  destruct (Parse (Args (env w)) EmptyString (Stdout (env w)))
    as [[v [err|]] out] eqn:HP.
  - rewrite (getPartInFlag_failed w v err out HP). intros [= _ <- _]. left. now eexists.
  - rewrite (getPartInFlag_ok w v out HP).
    destruct (bool_decide (v <> EmptyString)); [discriminate|].
    unfold getPartInEnv.
    destruct (bool_decide (Getenv "GOAOC_CHALLENGE_PART" w <> EmptyString));
      [discriminate|].
    unfold getPartInStdin, output.
    destruct (Stdout (env w)) as [b|werr];
      cbn [Fprintln Fprint Writer_Write set_Stdout Stdin].
    + destruct (Fscanln (Stdin (env w)) EmptyString) as [[word [serr|]] r].
      * destruct (errors_Is serr EOF).
        -- intros [= _ <- _]. left. now eexists.
        -- destruct (bool_decide (word <> EmptyString)); [discriminate|].
           intros [= _ <- _]. left. now eexists.
      * destruct (bool_decide (word <> EmptyString)); [discriminate|].
        intros [= _ <- _]. left. now eexists.
    + intros [= _ <- _]. now right.
Qed.

(** X16. Write of the default console manager fails exactly when the
    sink rejects the result line, and then with IOWriteError around the
    error of the sink, the world unchanged and no copy attempted; on a
    working sink it returns nil, also when the clipboard fails, and a
    failing clipboard keeps its text. *)
Theorem Write_fails_only_on_sink (result : string) w :
  (forall b, output w = Buffer b ->
             fst (Write DefaultConsoleManager result w) = None)
  /\ (forall err, output w = FailingWriter err ->
                  Write DefaultConsoleManager result w = (Some (IOWriteError err), w))
  /\ (forall e, clip_fault (clipboard w) = Some e ->
                clipboard (snd (Write DefaultConsoleManager result w)) = clipboard w).
Proof.
  split; [|split].
  - intros b Hb. now rewrite (Write_console result w b Hb).
  - intros err Hb. exact (Write_console_failing result w err Hb).
  - intros e He. destruct (output w) as [b|err] eqn:Hb.
    + rewrite (Write_console result w b Hb). cbn [snd]. unfold toClipboard.
      destruct (bool_decide _); [reflexivity|].
      unfold CopyText. cbn [with_Stdout set_env clipboard]. rewrite He.
      reflexivity.
    + now rewrite (Write_console_failing result w err Hb).
Qed.
End Results.

(** X17. On a buffer, the mock manager and the default console manager
    with the copy disabled write the same: after a successful Write of
    the same result both buffers hold the old content and the one line
    "The challenge result is <result>"; a mock manager set to fail
    returns its error and writes nothing. *)
Theorem mock_writes_like_console (m : mock.Manager) (result b : string)
    (w : World Writer) :
  user w = Buffer b ->
  output w = Buffer b ->
  environ w !! "GOAOC_DISABLE_COPY_CLIPBOARD" = Some "true" ->
  match mock.errOutput m with
  | None =>
      fst (Write (mock.as_IOManager m) result w) = None
      /\ fst (Write DefaultConsoleManager result w) = None
      /\ user (snd (Write (mock.as_IOManager m) result w))
         = output (snd (Write DefaultConsoleManager result w))
      /\ output (snd (Write DefaultConsoleManager result w))
         = Buffer (b +:+ "The challenge result is " +:+ result +:+ newline)
  | Some err => Write (mock.as_IOManager m) result w = (Some err, w)
  end.
Proof.
  intros Hu Ho Hd. destruct m as [mp es [eo|]]; cbn [mock.errOutput].
  - cbn [Write mock.as_IOManager]. unfold mock.Manager_Write. reflexivity.
  - rewrite (Write_console result w b Ho).
    rewrite (toClipboard_disabled result
               (with_Stdout
                  (Buffer (b +:+ "The challenge result is " +:+ result +:+ newline)) w) Hd).
    cbn [Write mock.as_IOManager]. unfold mock.Manager_Write, mock.formatResult.
    cbn [mock.errOutput]. rewrite Hu. cbn. repeat split.
Qed.



(** ** Further properties: the selector as text *)

Lemma parse_digits_uint_acc (d : Decimal.uint) : forall acc : positive,
  parse_digits (NilEmpty.string_of_uint d) (Z.pos acc)
  = Some (Z.pos (Pos.of_uint_acc d acc)).
Proof.
  induction d as [|d IH|d IH|d IH|d IH|d IH|d IH|d IH|d IH|d IH|d IH];
    intros acc; cbn [NilEmpty.string_of_uint Pos.of_uint_acc];
    [reflexivity|..];
    cbn [parse_digits];
    (match goal with
     | |- context [is_digit ?c] => change (is_digit c) with true
     end; cbv iota; rewrite <- IH; f_equal;
     match goal with
     | |- context [nat_of_ascii ?c] =>
         let n := eval vm_compute in (Z.of_nat (nat_of_ascii c)) in
         change (Z.of_nat (nat_of_ascii c)) with n
     end; lia).
Qed.

Lemma parse_digits_uint (d : Decimal.uint) :
  parse_digits (NilEmpty.string_of_uint d) 0 = Some (Z.of_uint d).
Proof.
  unfold Z.of_uint.
  induction d as [|d IH|d IH|d IH|d IH|d IH|d IH|d IH|d IH|d IH|d IH];
    cbn [NilEmpty.string_of_uint Pos.of_uint]; [reflexivity | exact IH |..];
    cbn [parse_digits];
    (match goal with
     | |- context [is_digit ?c] => change (is_digit c) with true
     end; cbv iota;
     match goal with
     | |- context [nat_of_ascii ?c] =>
         let n := eval vm_compute in (0 * 10 + (Z.of_nat (nat_of_ascii c) - 48)) in
         change (0 * 10 + (Z.of_nat (nat_of_ascii c) - 48)) with n
     end; apply parse_digits_uint_acc).
Qed.

(** The rendering of a number that is not [Nil] starts with a digit. *)
Lemma string_of_uint_head (d : Decimal.uint) :
  d <> Decimal.Nil ->
  exists c rest,
    NilEmpty.string_of_uint d = String c rest
    /\ c <> "+"%char /\ c <> "-"%char.
Proof.
  destruct d; [contradiction|..]; intros _;
    cbn [NilEmpty.string_of_uint]; eexists _, _;
    (split; [reflexivity | split; discriminate]).
Qed.

(** [Atoi] reads back what [Itoa] writes. *)
Lemma Atoi_Itoa (v : Z) : int_min <= v <= int_max -> Atoi (Itoa v) = Some v.
Proof.
  unfold int_min, int_max. intros Hv. destruct v as [|p|p].
  - reflexivity.
  - unfold Itoa. cbn [Z.to_int NilZero.string_of_int].
    pose proof (DecimalPos.Unsigned.to_uint_nonnil p) as Hnil.
    pose proof (parse_digits_uint (Pos.to_uint p)) as HP.
    unfold Z.of_uint in HP. rewrite DecimalPos.Unsigned.of_to in HP. cbn [Z.of_N] in HP.
    destruct (string_of_uint_head _ Hnil) as (c & rest & Hs & Hplus & Hminus).
    assert (Hz : NilZero.string_of_uint (Pos.to_uint p)
                 = NilEmpty.string_of_uint (Pos.to_uint p))
      by (destruct (Pos.to_uint p); [contradiction | reflexivity..]).
    rewrite Hz, Hs. rewrite Hs in HP. unfold Atoi.
    rewrite !bool_decide_eq_false_2 by assumption. cbn [orb negb andb].
    rewrite HP.
    destruct (2 ^ 63 <=? Z.pos p) eqn:E; [apply Z.leb_le in E; lia | reflexivity].
  - unfold Itoa. cbn [Z.to_int NilZero.string_of_int].
    pose proof (DecimalPos.Unsigned.to_uint_nonnil p) as Hnil.
    pose proof (parse_digits_uint (Pos.to_uint p)) as HP.
    unfold Z.of_uint in HP. rewrite DecimalPos.Unsigned.of_to in HP. cbn [Z.of_N] in HP.
    destruct (string_of_uint_head _ Hnil) as (c & rest & Hs & Hplus & Hminus).
    assert (Hz : NilZero.string_of_uint (Pos.to_uint p)
                 = NilEmpty.string_of_uint (Pos.to_uint p))
      by (destruct (Pos.to_uint p); [contradiction | reflexivity..]).
    rewrite Hz, Hs. rewrite Hs in HP. unfold Atoi.
    rewrite (bool_decide_eq_true_2 ("-"%char = "-"%char)) by reflexivity.
    rewrite orb_true_r. cbn [negb andb]. rewrite HP.
    destruct (2 ^ 63 <? Z.pos p) eqn:E; [apply Z.ltb_lt in E; lia | reflexivity].
Qed.

(** X20. The selector survives the way through text: when the
    manager's Read answers with the decimal rendering of an int v (no
    override set), Run selects exactly v: for 1 and 2 it dispatches to
    that part, for any other v it returns InvalidPartError carrying v,
    whose message quotes the text that was read. *)
Theorem selector_text_round_trip {U} input (partOne partTwo : Challenge)
    (options : list (RunOption (U := U))) mgr (w w1 : World U) (v : Z) :
  apply_options zero_options options = mkRunOptions mgr 0 ->
  int_min <= v <= int_max ->
  Read (default NewConsoleManager mgr) "part" w = ((Itoa v, None), w1) ->
  Run input partOne partTwo options w
  = (if bool_decide (v = 1 \/ v = 2)
     then dispatch_and_report (default NewConsoleManager mgr)
            input partOne partTwo v w1
     else (Returned (Some (InvalidPartError v)), w1))
  /\ Error (InvalidPartError v)
     = "invalid part: " +:+ Itoa v +:+ ". The valid parts are (1/2)".
Proof.
  intros Happ Hv HR. split; [|reflexivity].
  rewrite (Run_chain input partOne partTwo options mgr w Happ). cbv zeta.
  rewrite HR, (Atoi_Itoa v Hv).
  destruct (v =? 1) eqn:E1; [apply Z.eqb_eq in E1; subst|];
    [now rewrite bool_decide_eq_true_2 by (now left)|].
  destruct (v =? 2) eqn:E2; [apply Z.eqb_eq in E2; subst|];
    [now rewrite bool_decide_eq_true_2 by (now right)|].
  apply Z.eqb_neq in E1, E2.
  rewrite bool_decide_eq_false_2 by (intros [?|?]; contradiction).
  reflexivity.
Qed.

(** ** Further properties: flags the flag set does not know *)

Section UnknownFlags.
Context {U : Type}.

Local Abbreviation World := (World U).
Implicit Types (w : World).

(** X21. A first argument that is a flag with a name other than part,
    help and h (one or two dashes, no value attached) makes
    getPartInFlag fail with IOReadError around "flag provided but not
    defined: -<name>", whatever the arguments after it; on a working sink
    that message and the usage text are printed. *)
Theorem unknown_flag_rejected w (b : string) (two : bool) (n0 : ascii)
    (nrest : string) (rest : list string) :
  output w = Buffer b ->
  Args (env w)
  = ((if two then "--" else "-") +:+ String n0 nrest) :: rest ->
  n0 <> "-"%char -> n0 <> "="%char ->
  cut_equals nrest = None ->
  String n0 nrest <> "part" -> String n0 nrest <> "help" -> String n0 nrest <> "h" ->
  getPartInFlag w
  = ((EmptyString,
      Some (IOReadError
              (errorString ("flag provided but not defined: -" +:+ String n0 nrest)))),
     with_Stdout
       (Buffer (b +:+ ("flag provided but not defined: -" +:+ String n0 nrest +:+ newline)
                +:+ usage_text)) w).
Proof.
  intros Hb Hargs Hdash Heq Hcut Hpart Hhelp Hh.
  unfold output in Hb.
  assert (HP : Parse (Args (env w)) EmptyString (Buffer b)
               = (EmptyString,
                  Some (errorString
                          ("flag provided but not defined: -" +:+ String n0 nrest)),
                  Buffer (b +:+ ("flag provided but not defined: -"
                                 +:+ String n0 nrest +:+ newline) +:+ usage_text))).
  { rewrite Hargs.
    destruct two;
      [change ("--" +:+ String n0 nrest) with (String "-" (String "-" (String n0 nrest)))
      |change ("-" +:+ String n0 nrest) with (String "-" (String n0 nrest))];
      cbn [Parse];
      repeat (first [ rewrite (bool_decide_eq_true_2 ("-"%char = "-"%char)) by reflexivity
                    | rewrite bool_decide_eq_false_2 by (assumption || discriminate) ];
              cbn [negb andb orb]);
      rewrite Hcut;
      repeat (rewrite bool_decide_eq_false_2 by (assumption || discriminate);
              cbn [negb andb orb]);
      rewrite failf_buffer; unfold failure_text;
      rewrite decide_False by discriminate; cbn [Error]; reflexivity. }
  unfold getPartInFlag. rewrite Hb, HP. reflexivity.
Qed.

(** X22. A request of help ([-h], [-help], [--h], [--help]) as first
    argument is a failure too: getPartInFlag returns IOReadError around
    flag.ErrHelp, and on a working sink only the usage text is printed. *)
Theorem help_flag_fails w (b flag : string) (rest : list string) :
  output w = Buffer b ->
  Args (env w) = flag :: rest ->
  In flag ["-h"; "-help"; "--h"; "--help"] ->
  getPartInFlag w
  = ((EmptyString, Some (IOReadError ErrHelp)),
     with_Stdout (Buffer (b +:+ usage_text)) w).
Proof.
  intros Hb Hargs Hin. unfold output in Hb.
  assert (HP : Parse (flag :: rest) EmptyString (Buffer b)
               = (EmptyString, Some ErrHelp, Usage (Buffer b))).
  { cbn [In] in Hin. destruct Hin as [<- | [<- | [<- | [<- | []]]]]; reflexivity. }
  unfold getPartInFlag. rewrite Hb, Hargs, HP, Usage_buffer. reflexivity.
Qed.
End UnknownFlags.

(** ** Instances of the further properties *)


Lemma getPartInFlag_success_is_silent_witness :
  fst (getPartInFlag (console ["-part=1"] EmptyString (Buffer EmptyString) ∅))
  = ("1", None)
  /\ snd (getPartInFlag (console ["-part=1"] EmptyString (Buffer EmptyString) ∅))
     = console ["-part=1"] EmptyString (Buffer EmptyString) ∅.
Proof.
  split; [reflexivity|].
  exact (getPartInFlag_success_is_silent
           (console ["-part=1"] EmptyString (Buffer EmptyString) ∅) "1"
           (snd (getPartInFlag (console ["-part=1"] EmptyString (Buffer EmptyString) ∅)))
           eq_refl).
Defined.

Lemma getPartInFlag_failure_report_witness :
  exists err,
    IOReadError (errorString "flag provided but not defined: -test") = IOReadError err
    /\ EmptyString = EmptyString
    /\ snd (getPartInFlag (console ["--test"] EmptyString (Buffer "> ") ∅))
       = with_Stdout (Buffer ("> " +:+ failure_text err +:+ usage_text))
           (console ["--test"] EmptyString (Buffer "> ") ∅).
Proof.
  exact (getPartInFlag_failure_report
           (console ["--test"] EmptyString (Buffer "> ") ∅) "> " EmptyString
           (IOReadError (errorString "flag provided but not defined: -test"))
           (snd (getPartInFlag (console ["--test"] EmptyString (Buffer "> ") ∅)))
           eq_refl eq_refl).
Defined.

Lemma Run_frame_witness :
  apply_options (U := unit) zero_options [WithPart 2] = mkRunOptions None 2
  /\ same_setting
       (console ["-part=1"] EmptyString (Buffer EmptyString) ∅)
       (snd (Run "abc" partOne partTwo [WithPart 2]
               (console ["-part=1"] EmptyString (Buffer EmptyString) ∅)))
  /\ output_extends
       (console ["-part=1"] EmptyString (Buffer EmptyString) ∅)
       (snd (Run "abc" partOne partTwo [WithPart 2]
               (console ["-part=1"] EmptyString (Buffer EmptyString) ∅))).
Proof.
  split; [reflexivity|].
  exact (Run_frame "abc" partOne partTwo [WithPart 2] 2
           (console ["-part=1"] EmptyString (Buffer EmptyString) ∅) eq_refl).
Defined.


Lemma Run_chain_success_witness :
  (Read (mock.as_IOManager (mock.NewManager "2" None None)) "part" mock_world
   = (("2", None), mock_world)
   /\ Atoi "2" = Some 2 /\ (2 = 1 \/ 2 = 2))
  /\ run_mock (mock.NewManager "2" None None)
     = (let '(err, w2) :=
          Write (mock.as_IOManager (mock.NewManager "2" None None))
                (Itoa (if 2 =? 1 then mockPartOne "input" else mockPartTwo "input"))
                mock_world in
        (Returned err, w2)).
Proof.
  split; [split; [reflexivity | split; [reflexivity | now right]]|].
  exact (Run_chain_success "input" mockPartOne mockPartTwo
           [WithManager (mock.as_IOManager (mock.NewManager "2" None None))]
           (Some (mock.as_IOManager (mock.NewManager "2" None None)))
           mock_world "2" mock_world 2 eq_refl eq_refl eq_refl (or_intror eq_refl)).
Defined.

Lemma Run_options_normal_form_witness :
  apply_options (U := unit) zero_options [WithPart 2; WithPart 0] = mkRunOptions None 0
  /\ Run "abc" partOne partTwo [WithPart 2; WithPart 0]
       (console ["-part=1"] EmptyString (Buffer EmptyString) ∅)
     = Run "abc" partOne partTwo ([] ++ [WithPart 0])
         (console ["-part=1"] EmptyString (Buffer EmptyString) ∅).
Proof.
  split; [reflexivity|].
  exact (proj1 (Run_options_normal_form "abc" partOne partTwo
                  [WithPart 2; WithPart 0] None 0
                  (console ["-part=1"] EmptyString (Buffer EmptyString) ∅) eq_refl)).
Defined.

Lemma Read_error_kinds_witness :
  (exists cause, errorString "write failed" = IOReadError cause)
  \/ output (console [] EmptyString (FailingWriter (errorString "write failed")) ∅)
     = FailingWriter (errorString "write failed").
Proof.
  assert (HR : Read DefaultConsoleManager "part"
                 (console [] EmptyString (FailingWriter (errorString "write failed")) ∅)
               = ((EmptyString, Some (errorString "write failed")),
                  console [] EmptyString (FailingWriter (errorString "write failed")) ∅))
    by (vm_compute; reflexivity).
  exact (Read_error_kinds _ _ _ _ HR).
Defined.

Lemma mock_writes_like_console_witness :
  environ (quiet_world "> ") !! "GOAOC_DISABLE_COPY_CLIPBOARD" = Some "true"
  /\ user (snd (Write (mock.as_IOManager (mock.NewManager "1" None None)) "42"
                  (quiet_world "> ")))
     = output (snd (Write DefaultConsoleManager "42" (quiet_world "> "))).
Proof.
  assert (Hd : environ (quiet_world "> ") !! "GOAOC_DISABLE_COPY_CLIPBOARD"
               = Some "true")
    by (vm_compute; reflexivity).
  split; [exact Hd|].
  exact (proj1 (proj2 (proj2 (mock_writes_like_console
                                (mock.NewManager "1" None None) "42" "> "
                                (quiet_world "> ") eq_refl eq_refl Hd)))).
Defined.

Lemma selector_text_round_trip_witness :
  (int_min <= 7 <= int_max
   /\ Read (mock.as_IOManager (mock.NewManager (Itoa 7) None None)) "part" mock_world
      = ((Itoa 7, None), mock_world))
  /\ run_mock (mock.NewManager (Itoa 7) None None)
     = (Returned (Some (InvalidPartError 7)), mock_world).
Proof.
  assert (Hr : int_min <= 7 <= int_max) by (unfold int_min, int_max; lia).
  split; [split; [exact Hr | reflexivity]|].
  exact (proj1 (selector_text_round_trip "input" mockPartOne mockPartTwo
                  [WithManager (mock.as_IOManager (mock.NewManager (Itoa 7) None None))]
                  (Some (mock.as_IOManager (mock.NewManager (Itoa 7) None None)))
                  mock_world mock_world 7 eq_refl Hr eq_refl)).
Defined.

Lemma unknown_flag_rejected_witness :
  (cut_equals "erbose" = None /\ "verbose" <> "part")
  /\ fst (getPartInFlag (console ["--verbose"; "-part=1"] EmptyString (Buffer EmptyString) ∅))
     = (EmptyString,
        Some (IOReadError (errorString "flag provided but not defined: -verbose"))).
Proof.
  split; [split; [reflexivity | discriminate]|].
  rewrite (unknown_flag_rejected
             (console ["--verbose"; "-part=1"] EmptyString (Buffer EmptyString) ∅)
             EmptyString true "v"%char "erbose" ["-part=1"]
             eq_refl eq_refl ltac:(discriminate) ltac:(discriminate) eq_refl
             ltac:(discriminate) ltac:(discriminate) ltac:(discriminate)).
  reflexivity.
Defined.

Lemma help_flag_fails_witness :
  In "-help" ["-h"; "-help"; "--h"; "--help"]
  /\ fst (getPartInFlag (console ["-help"] EmptyString (Buffer EmptyString) ∅))
     = (EmptyString, Some (IOReadError ErrHelp)).
Proof.
  split; [right; left; reflexivity|].
  rewrite (help_flag_fails
             (console ["-help"] EmptyString (Buffer EmptyString) ∅)
             EmptyString "-help" [] eq_refl eq_refl (or_intror (or_introl eq_refl))).
  reflexivity.
Defined.
